(** * Training utilities for a two-head classifier (train_utils.py)

    A shallow embedding of [Flatten], [batch_data], [compute_accuracy],
    [run_epoch] and [train_model], with the Python builtins they rely on ([range],
    slicing, [int(a / b)]), the NumPy reductions ([np.equal], [np.mean])
    and the part of PyTorch the training loop drives (tensor construction,
    [zero_grad], [backward], [torch.optim.SGD.step], [torch.save]).

    Numbers: Python integers are [Z]; floating-point values (losses,
    accuracies, parameters, gradients, hyper-parameters) are idealised as
    rationals [Q], with a separate not-a-number value where NumPy yields
    one.  Rounding is therefore not modelled. *)

From Stdlib Require Import ZArith QArith Lia Lqa.
From stdpp Require Import gmap strings list fin_maps.

Local Open Scope Z_scope.

(** ** Exceptions and the error monad *)

Inductive exn : Type :=
  | ZeroDivisionError   (* len(x_data) / 0 *)
  | ValueError          (* range step 0, ragged tensor rows, shapes that do not
                           broadcast, refused optimizer hyper-parameters *)
  | IndexError          (* y[k] beyond the first dimension *)
  | RuntimeError.       (* faults raised inside the forward pass or the loss *)

Inductive result (A : Type) : Type :=
  | Ok (a : A)
  | Err (e : exn).
Arguments Ok {A} a.
Arguments Err {A} e.

Definition rbind {A B : Type} (m : result A) (k : A -> result B) : result B :=
  match m with
  | Ok a => k a
  | Err e => Err e
  end.

Notation "'let?' x ':=' m 'in' k" := (rbind m (fun x => k))
  (at level 10, x pattern, m at level 100, k at level 200).

(** Runs [f] over a list from left to right and stops at the first
    exception, as a Python [for] loop whose body may raise. *)
Fixpoint for_each {A B : Type} (f : A -> result B) (l : list A) : result (list B) :=
  match l with
  | [] => Ok []
  | a :: l' =>
      let? b := f a in
      let? bs := for_each f l' in
      Ok (b :: bs)
  end.

(** ** Python builtins *)

Module Py.

Definition len {A : Type} (l : list A) : Z := Z.of_nat (length l).

(** [int(a / b)] on two Python ints: true division, then truncation
    towards zero.  The float quotient is exact enough for the truncation
    to agree with the integer quotient for every length below 2^53. *)
Definition int_div (a b : Z) : result Z :=
  if b =? 0 then Err ZeroDivisionError else Ok (Z.quot a b).

(** Number of elements of [range(start, stop, step)], step nonzero. *)
Definition range_len (start stop step : Z) : Z :=
  if 0 <? step then
    if start <? stop then (stop - start - 1) / step + 1 else 0
  else
    if stop <? start then (start - stop - 1) / (- step) + 1 else 0.

Definition range (start stop step : Z) : result (list Z) :=
  if step =? 0 then Err ValueError
  else Ok (map (fun k : nat => start + Z.of_nat k * step)
               (seq 0 (Z.to_nat (range_len start stop step)))).

(** A slice bound is shifted by the length when negative and clamped
    to [0, len]. *)
Definition clamp (n i : Z) : Z :=
  if i <? 0 then Z.max 0 (i + n) else Z.min i n.

(** [l[i:j]] *)
Definition slice {A : Type} (l : list A) (i j : Z) : list A :=
  let lo := clamp (len l) i in
  let hi := clamp (len l) j in
  take (Z.to_nat (hi - lo)) (drop (Z.to_nat lo) l).

End Py.

(** ** Tensors *)

Inductive dtype : Type := Float32 | Int64.
Inductive device_t : Type := Cuda | Cpu.

Record tensor (A : Type) : Type := Tensor {
  t_dtype  : dtype;
  t_device : device_t;
  t_data   : A
}.
Arguments Tensor {A}.
Arguments t_dtype {A}.
Arguments t_device {A}.
Arguments t_data {A}.

Module Torch.

(** [torch.tensor(rows, dtype=...)] on a list of rows: the rows must all
    have the same length. *)
Definition rectangular {A : Type} (rows : list (list A)) : bool :=
  match rows with
  | [] => true
  | r :: rs => forallb (fun r' => Nat.eqb (length r') (length r)) rs
  end.

Definition tensor_rows {A : Type} (dt : dtype) (rows : list (list A))
  : result (tensor (list (list A))) :=
  if rectangular rows then Ok (Tensor dt Cpu rows) else Err ValueError.

(** [t.to(device)] *)
Definition to {A : Type} (t : tensor A) (d : device_t) : tensor A :=
  Tensor (t_dtype t) d (t_data t).

End Torch.

(** ** batch_data *)

Record batch (S : Type) : Type := Batch {
  b_x : tensor (list S);
  b_y : tensor (list (list Z))
}.
Arguments Batch {S}.
Arguments b_x {S}.
Arguments b_y {S}.

Section Batching.

(** Samples, and the element-wise conversion [torch.tensor(...,
    dtype=torch.float32)] applies to them. *)
Variable Sample : Type.
Variable to_float32 : Sample -> Sample.

(** [torch.cuda.is_available()], read once when the module is loaded. *)
Variable cuda_is_available : bool.

Definition device : device_t := if cuda_is_available then Cuda else Cpu.

Definition batch_data (x_data : list Sample) (y_data : list Z * list Z)
    (batch_size : Z) : result (list (batch Sample)) :=
  let? q := Py.int_div (Py.len x_data) batch_size in
  let N := q * batch_size in
  let? idx := Py.range 0 N batch_size in
  for_each
    (fun i =>
       let x := Tensor Float32 Cpu
                  (map to_float32 (Py.slice x_data i (i + batch_size))) in
       let? y := Torch.tensor_rows Int64
                   [Py.slice (fst y_data) i (i + batch_size);
                    Py.slice (snd y_data) i (i + batch_size)] in
       Ok (Batch (Torch.to x device) (Torch.to y device)))
    idx.

End Batching.

Arguments batch_data {Sample}.

(** ** NumPy reductions and compute_accuracy *)

(** A float64 as NumPy returns it: a (rational) value or not-a-number. *)
Inductive npfloat : Type :=
  | NaN
  | Fin (q : Q).

Module Np.

(** [np.equal(a, b)] on one-dimensional arrays: element-wise on equal
    shapes, a length-one array is broadcast, other shapes are refused. *)
Definition equal (a b : list Z) : result (list bool) :=
  if Nat.eqb (length a) (length b) then Ok (zip_with Z.eqb a b)
  else match a, b with
       | [u], _ => Ok (map (Z.eqb u) b)
       | _, [v] => Ok (map (fun u => Z.eqb u v) a)
       | _, _ => Err ValueError
       end.

(** The sum of a boolean array, [True] counting 1 and [False] 0. *)
Definition count_true (l : list bool) : nat := sum_list (map Nat.b2n l).

(** [np.mean] of a boolean array: the number of [True] over the size,
    not-a-number (with a warning, no exception) on the empty array. *)
Definition mean_bool (l : list bool) : npfloat :=
  match l with
  | [] => NaN
  | _ => Fin (Z.of_nat (count_true l) # Pos.of_nat (length l))
  end.

Fixpoint sum (l : list npfloat) : npfloat :=
  match l with
  | [] => Fin 0
  | NaN :: _ => NaN
  | Fin q :: l' => match sum l' with NaN => NaN | Fin s => Fin (q + s) end
  end.

(** [np.mean] of a list of floats. *)
Definition mean (l : list npfloat) : npfloat :=
  match l with
  | [] => NaN
  | _ => match sum l with
         | NaN => NaN
         | Fin s => Fin (s / (Z.of_nat (length l) # 1))
         end
  end.

End Np.

(** [tensor.cpu().detach().numpy()] *)
Definition tensor2array {A : Type} (t : tensor A) : A := t_data t.

Definition compute_accuracy (predictions y : tensor (list Z)) : result npfloat :=
  let? eqs := Np.equal (tensor2array predictions) (tensor2array y) in
  Ok (Np.mean_bool eqs).

Definition labels (l : list Z) : tensor (list Z) := Tensor Int64 Cpu l.

(** ** The model, the optimizer and the world they live in *)

(** A zero-dimensional tensor attached to the autograd graph: its value and
    its derivative with respect to each model parameter, in the order of
    [model.parameters()]. *)
Record scalar : Type := Scalar {
  s_value : Q;
  s_grad  : list Q
}.

Definition s_add (a b : scalar) : scalar :=
  Scalar (s_value a + s_value b) (zip_with Qplus (s_grad a) (s_grad b)).

Definition s_scale (c : Q) (a : scalar) : scalar :=
  Scalar (c * s_value a) (map (Qmult c) (s_grad a)).

(** A parameter: its value and its accumulated gradient ([None] until a
    backward pass reaches it, and again after [zero_grad]). *)
Record param : Type := Param {
  p_data : Q;
  p_grad : option Q
}.

Record model_state : Type := ModelState {
  params   : list param;
  training : bool
}.

(** What [torch.save(model, path)] pickles: parameter values and the mode
    flag (gradients are not serialised). *)
Record checkpoint : Type := Checkpoint {
  c_params   : list Q;
  c_training : bool
}.

Definition snapshot (m : model_state) : checkpoint :=
  Checkpoint (map p_data (params m)) (training m).

Inductive line : Type :=
  | Header (epoch : Z)
  | TrainMetrics (loss1 acc1 loss2 acc2 : npfloat)
  | DevMetrics (loss1 acc1 loss2 acc2 : npfloat).

Inductive event : Type :=
  | EvZeroGrad
  | EvBackward (objective : scalar)
  | EvStep
  | EvPrint (l : line)
  | EvSave (path : string) (c : checkpoint).

(** [torch.optim.SGD] hyper-parameters (dampening and weight decay keep
    their default 0). *)
Record sgd : Type := SGD {
  lr       : Q;
  momentum : Q;
  nesterov : bool
}.

Record world : Type := World {
  w_model : model_state;        (* the one model object *)
  w_opt   : gmap nat Q;         (* optimizer.state: momentum buffer per parameter *)
  w_log   : list event;         (* calls and output, oldest first *)
  w_fs    : gmap string checkpoint
}.

Definition M (A : Type) : Type := world -> result (A * world).

Definition ret {A : Type} (a : A) : M A := fun w => Ok (a, w).

Definition bind {A B : Type} (m : M A) (k : A -> M B) : M B :=
  fun w => match m w with
           | Ok (a, w') => k a w'
           | Err e => Err e
           end.

Definition lift {A : Type} (r : result A) : M A :=
  fun w => match r with Ok a => Ok (a, w) | Err e => Err e end.

Definition get_model : M model_state := fun w => Ok (w_model w, w).

Definition put_model (m : model_state) : M unit :=
  fun w => Ok (tt, World m (w_opt w) (w_log w) (w_fs w)).

Definition emit (e : event) : M unit :=
  fun w => Ok (tt, World (w_model w) (w_opt w) (w_log w ++ [e]) (w_fs w)).

Notation "'let!' x ':=' m 'in' k" := (bind m (fun x => k))
  (at level 10, x pattern, m at level 100, k at level 200).

(** A [for] loop threading local variables [s] through the body. *)
Fixpoint for_loop {A S : Type} (body : S -> A -> M S) (l : list A) (s : S) : M S :=
  match l with
  | [] => ret s
  | a :: l' => let! s' := body s a in for_loop body l' s'
  end.

Module Optim.

(** [optimizer.zero_grad()] (gradients are reset to [None]) *)
Definition zero_grad : M unit :=
  let! m := get_model in
  let! _ := put_model (ModelState (map (fun p => Param (p_data p) None) (params m))
                                  (training m)) in
  emit EvZeroGrad.

(** [objective.backward()]: each parameter's gradient accumulates the
    derivative of the objective. *)
Definition accumulate (i : nat) (g : list Q) (p : param) : param :=
  let d := default 0%Q (g !! i) in
  Param (p_data p) (Some (match p_grad p with None => d | Some old => (old + d)%Q end)).

Definition backward (objective : scalar) : M unit :=
  let! m := get_model in
  let! _ := put_model (ModelState (imap (fun i => accumulate i (s_grad objective))
                                        (params m))
                                  (training m)) in
  emit (EvBackward objective).

(** One parameter of [SGD.step]: parameters without gradient are skipped;
    the momentum buffer starts as the gradient and is then updated to
    [momentum * buf + grad]. *)
Definition new_buf (o : sgd) (g : Q) (buf : option Q) : Q :=
  match buf with
  | None => g
  | Some b => (momentum o * b + g)%Q
  end.

Definition direction (o : sgd) (g : Q) (buf : option Q) : Q :=
  if Qeq_bool (momentum o) 0 then g
  else if nesterov o then (g + momentum o * new_buf o g buf)%Q
  else new_buf o g buf.

Definition update (o : sgd) (st : gmap nat Q) (i : nat) (p : param) : param :=
  match p_grad p with
  | None => p
  | Some g => Param (p_data p - lr o * direction o g (st !! i))%Q (p_grad p)
  end.

Definition update_state (o : sgd) (old : gmap nat Q) (st : gmap nat Q)
    (ip : nat * param) : gmap nat Q :=
  match p_grad (snd ip) with
  | None => st
  | Some g => if Qeq_bool (momentum o) 0 then st
              else <[fst ip := new_buf o g (old !! fst ip)]> st
  end.

Definition step (o : sgd) : M unit :=
  fun w =>
    let m := w_model w in
    let ps := imap (update o (w_opt w)) (params m) in
    let st := foldl (update_state o (w_opt w)) (w_opt w) (imap pair (params m)) in
    Ok (tt, World (ModelState ps (training m)) st (w_log w ++ [EvStep]) (w_fs w)).

(** [torch.optim.SGD(model.parameters(), lr=..., momentum=...,
    nesterov=...)]: the constructor refuses an empty parameter list,
    negative values, and Nesterov momentum without momentum; the
    optimizer starts with no momentum buffers. *)
Definition make (lr momentum : Q) (nesterov : bool) : M sgd :=
  fun w =>
    match params (w_model w) with
    | [] => Err ValueError
    | _ =>
      if Qle_bool 0 lr && Qle_bool 0 momentum
         && (negb nesterov || negb (Qle_bool momentum 0))
      then Ok (SGD lr momentum nesterov,
               World (w_model w) ∅ (w_log w) (w_fs w))
      else Err ValueError
    end.

End Optim.

(** [y[k]] on the label tensor *)
Definition row (y : tensor (list (list Z))) (k : nat) : result (tensor (list Z)) :=
  match t_data y !! k with
  | Some r => Ok (Tensor (t_dtype y) (t_device y) r)
  | None => Err IndexError
  end.

(** ** run_epoch and train_model *)

Record tallies : Type := Tallies {
  losses_first_label      : list npfloat;
  losses_second_label     : list npfloat;
  batch_accuracies_first  : list npfloat;
  batch_accuracies_second : list npfloat
}.

Definition checkpoint_path : string := "mnist_model_fully_connected.pt".

Section Training.

Variable Sample : Type.

(** The two outputs of the model, [torch.argmax(out, dim=1)] and
    [F.cross_entropy(out, target)] on them. *)
Variable Logits : Type.
Variable argmax : Logits -> tensor (list Z).
Variable cross_entropy : Logits -> tensor (list Z) -> result scalar.

(** The model's forward pass.  It is the model author's code: it reads
    the model state, may raise, and may write the model state. *)
Variable forward :
  model_state -> tensor (list Sample) -> result (Logits * Logits * model_state).

(** [model(x)] *)
Definition call_model (x : tensor (list Sample)) : M (Logits * Logits) :=
  fun w => match forward (w_model w) x with
           | Ok (outs, m') => Ok (outs, World m' (w_opt w) (w_log w) (w_fs w))
           | Err e => Err e
           end.

(** [model.train()] and [model.eval()] *)
Definition set_mode (flag : bool) : M unit :=
  let! m := get_model in put_model (ModelState (params m) flag).

(** [torch.save(model, path)] *)
Definition save (path : string) : M unit :=
  fun w => Ok (tt, World (w_model w) (w_opt w)
                         (w_log w ++ [EvSave path (snapshot (w_model w))])
                         (<[path := snapshot (w_model w)]> (w_fs w))).

Definition joint (loss1 loss2 : scalar) : scalar :=
  s_scale (1 # 2) (s_add loss1 loss2).

(** The body of the loop over batches ([tqdm] only draws a progress bar
    around the iteration). *)
Definition run_batch (optimizer : sgd) (is_training : bool)
    (t : tallies) (b : batch Sample) : M tallies :=
  let x := b_x b in
  let y := b_y b in
  let! (out1, out2) := call_model x in
  let predictions_first_label := argmax out1 in
  let predictions_second_label := argmax out2 in
  let! y0 := lift (row y 0) in
  let! acc1 := lift (compute_accuracy predictions_first_label y0) in
  let! y1 := lift (row y 1) in
  let! acc2 := lift (compute_accuracy predictions_second_label y1) in
  let! loss1 := lift (cross_entropy out1 y0) in
  let! loss2 := lift (cross_entropy out2 y1) in
  let t' := Tallies (losses_first_label t ++ [Fin (s_value loss1)])
                    (losses_second_label t ++ [Fin (s_value loss2)])
                    (batch_accuracies_first t ++ [acc1])
                    (batch_accuracies_second t ++ [acc2]) in
  if is_training then
    let! _ := Optim.zero_grad in
    let joint_loss := joint loss1 loss2 in
    let! _ := Optim.backward joint_loss in
    let! _ := Optim.step optimizer in
    ret t'
  else ret t'.

Definition run_epoch (data : list (batch Sample)) (optimizer : sgd)
  : M ((npfloat * npfloat) * (npfloat * npfloat)) :=
  let! m := get_model in
  let is_training := training m in
  let! t := for_loop (run_batch optimizer is_training) data (Tallies [] [] [] []) in
  let avg_loss := (Np.mean (losses_first_label t), Np.mean (losses_second_label t)) in
  let avg_accuracy :=
    (Np.mean (batch_accuracies_first t), Np.mean (batch_accuracies_second t)) in
  ret (avg_loss, avg_accuracy).

(** The body of the loop over epochs. *)
Definition train_epoch (train_data dev_data : list (batch Sample))
    (optimizer : sgd) (_ : unit) (epoch : Z) : M unit :=
  let! _ := emit (EvPrint (Header epoch)) in
  let! _ := set_mode true in
  let! (loss, acc) := run_epoch train_data optimizer in
  let! _ := emit (EvPrint (TrainMetrics (fst loss) (fst acc) (snd loss) (snd acc))) in
  let! _ := set_mode false in
  let! (v_loss, v_acc) := run_epoch dev_data optimizer in
  let! _ := emit (EvPrint (DevMetrics (fst v_loss) (fst v_acc) (snd v_loss) (snd v_acc))) in
  save checkpoint_path.

Definition train_model (train_data dev_data : list (batch Sample))
    (lr momentum : Q) (nesterov : bool) (n_epochs : Z) : M unit :=
  let! optimizer := Optim.make lr momentum nesterov in
  let! epochs := lift (Py.range 1 (n_epochs + 1) 1) in
  for_loop (train_epoch train_data dev_data optimizer) epochs tt.

End Training.

Arguments run_batch {Sample Logits}.
Arguments run_epoch {Sample Logits}.
Arguments train_epoch {Sample Logits}.
Arguments train_model {Sample Logits}.
Arguments call_model {Sample Logits}.

(** ** Vocabulary of the statements *)

(** The [k]-th block of [b] consecutive elements of [l]. *)
Definition chunk {A : Type} (b : Z) (k : nat) (l : list A) : list A :=
  take (Z.to_nat b) (drop (k * Z.to_nat b) l).

(** The batch [batch_data] builds from the [k]-th chunks. *)
Definition nth_batch {Sample : Type} (to_float32 : Sample -> Sample) (cuda : bool)
    (x_data : list Sample) (y0 y1 : list Z) (b : Z) (k : nat) : batch Sample :=
  Batch (Tensor Float32 (device cuda) (map to_float32 (chunk b k x_data)))
        (Tensor Int64 (device cuda) [chunk b k y0; chunk b k y1]).

(** The batch made of the slices at positions [k*b .. k*b+b). *)
Definition sliced_batch {Sample : Type} (to_float32 : Sample -> Sample) (cuda : bool)
    (x_data : list Sample) (y0 y1 : list Z) (b : Z) (k : nat) : batch Sample :=
  Batch (Tensor Float32 (device cuda)
           (map to_float32 (Py.slice x_data (Z.of_nat k * b) (Z.of_nat k * b + b))))
        (Tensor Int64 (device cuda)
           [Py.slice y0 (Z.of_nat k * b) (Z.of_nat k * b + b);
            Py.slice y1 (Z.of_nat k * b) (Z.of_nat k * b + b)]).

(** Number of positions at which two label vectors agree. *)
Fixpoint agreements (p y : list Z) : nat :=
  match p, y with
  | a :: p', b :: y' => (if a =? b then 1 else 0) + agreements p' y'
  | _, _ => 0
  end.

Fixpoint Qsum (l : list Q) : Q :=
  match l with
  | [] => 0
  | q :: l' => q + Qsum l'
  end.

(** What one batch contributes to the tallies of an epoch. *)
Record observation : Type := Observation {
  o_loss1 : scalar;
  o_loss2 : scalar;
  o_acc1  : npfloat;
  o_acc2  : npfloat
}.

Definition record_all (t : tallies) (rs : list observation) : tallies :=
  Tallies (losses_first_label t ++ map (fun r => Fin (s_value (o_loss1 r))) rs)
          (losses_second_label t ++ map (fun r => Fin (s_value (o_loss2 r))) rs)
          (batch_accuracies_first t ++ map o_acc1 rs)
          (batch_accuracies_second t ++ map o_acc2 rs).

(** [r] is what the batch [b] yields when the forward pass runs on the
    model state [st] and leaves it as [st']. *)
Definition observed {Sample Logits : Type}
    (argmax : Logits -> tensor (list Z))
    (cross_entropy : Logits -> tensor (list Z) -> result scalar)
    (forward : model_state -> tensor (list Sample)
               -> result (Logits * Logits * model_state))
    (st : model_state) (b : batch Sample) (r : observation) (st' : model_state)
  : Prop :=
  exists out1 out2 y0 y1,
    forward st (b_x b) = Ok (out1, out2, st') /\
    row (b_y b) 0 = Ok y0 /\ row (b_y b) 1 = Ok y1 /\
    compute_accuracy (argmax out1) y0 = Ok (o_acc1 r) /\
    compute_accuracy (argmax out2) y1 = Ok (o_acc2 r) /\
    cross_entropy out1 y0 = Ok (o_loss1 r) /\
    cross_entropy out2 y1 = Ok (o_loss2 r).

(** The forward pass leaves the parameters (values and gradients) alone,
    as the forward pass of every standard layer does. *)
Definition keeps_params {Sample Logits : Type}
    (forward : model_state -> tensor (list Sample)
               -> result (Logits * Logits * model_state)) : Prop :=
  forall st x outs st', forward st x = Ok (outs, st') -> params st' = params st.




(** The forward pass leaves the mode flag alone. *)
Definition keeps_mode {Sample Logits : Type}
    (forward : model_state -> tensor (list Sample)
               -> result (Logits * Logits * model_state)) : Prop :=
  forall st x outs st', forward st x = Ok (outs, st') -> training st' = training st.

(** The forward pass leaves the whole model state alone. *)
Definition keeps_state {Sample Logits : Type}
    (forward : model_state -> tensor (list Sample)
               -> result (Logits * Logits * model_state)) : Prop :=
  forall st x outs st', forward st x = Ok (outs, st') -> st' = st.

(** The number of [optimizer.step()] calls among a list of events. *)
Definition is_step (e : event) : bool :=
  match e with EvStep => true | _ => false end.

Definition count_steps (evs : list event) : nat := length (List.filter is_step evs).

(** Two worlds that differ at most in what was logged. *)
Definition same_state (w1 w2 : world) : Prop :=
  w_model w1 = w_model w2 /\ w_opt w1 = w_opt w2 /\ w_fs w1 = w_fs w2.

(** The world in which the training pass of an epoch starts, and the one
    in which its validation pass starts. *)
Definition train_start (epoch : Z) (w : world) : world :=
  World (ModelState (params (w_model w)) true) (w_opt w)
        (w_log w ++ [EvPrint (Header epoch)]) (w_fs w).

Definition dev_start (l : line) (w : world) : world :=
  World (ModelState (params (w_model w)) false) (w_opt w)
        (w_log w ++ [EvPrint l]) (w_fs w).

(** The parameter update of one training batch. *)
Definition train_update (optimizer : sgd) (objective : scalar) : M unit :=
  let! _ := Optim.zero_grad in
  let! _ := Optim.backward objective in
  Optim.step optimizer.

(** The parameters after one training update on the objective [j]:
    gradients reset, the derivative of [j] accumulated, one SGD step. *)
Definition stepped_params (optimizer : sgd) (j : scalar) (w : world) : list param :=
  imap (Optim.update optimizer (w_opt w))
       (imap (fun i => Optim.accumulate i (s_grad j))
             (map (fun p => Param (p_data p) None) (params (w_model w)))).

(** The derivative of the joint objective of a batch with respect to the
    [i]-th parameter. *)
Definition joint_grad (r : observation) (i : nat) : Q :=
  default 0%Q (s_grad (joint (o_loss1 r) (o_loss2 r)) !! i).

(** The checkpoint writes among a list of events. *)
Definition save_of (e : event) : option (string * checkpoint) :=
  match e with
  | EvSave path c => Some (path, c)
  | _ => None
  end.

(** The world once the forward pass has left the model in state [st]. *)
Definition with_model (w : world) (st : model_state) : world :=
  World st (w_opt w) (w_log w) (w_fs w).

(** The calls one training update makes, in order. *)
Definition update_events (r : observation) : list event :=
  [EvZeroGrad; EvBackward (joint (o_loss1 r) (o_loss2 r)); EvStep].

(** Events without their payload. *)
Inductive call : Type := CZeroGrad | CBackward | CStep | CPrint | CSave.

Definition call_of (e : event) : call :=
  match e with
  | EvZeroGrad => CZeroGrad
  | EvBackward _ => CBackward
  | EvStep => CStep
  | EvPrint _ => CPrint
  | EvSave _ _ => CSave
  end.

(** The console lines and checkpoint writes of a run, without the metric
    values; optimizer calls are left out. *)
Inductive mark : Type :=
  | MHeader (epoch : Z)
  | MTrain
  | MDev
  | MSave (path : string).

Definition mark_of (e : event) : option mark :=
  match e with
  | EvPrint (Header k) => Some (MHeader k)
  | EvPrint (TrainMetrics _ _ _ _) => Some MTrain
  | EvPrint (DevMetrics _ _ _ _) => Some MDev
  | EvSave path _ => Some (MSave path)
  | _ => None
  end.

Definition epoch_marks (epoch : nat) : list mark :=
  [MHeader (1 + Z.of_nat epoch); MTrain; MDev; MSave checkpoint_path].

Definition is_save (e : event) : bool :=
  match e with EvSave _ _ => true | _ => false end.

(** ** Flatten *)

(** A tensor of any rank as nested lists: an element, or one more
    dimension over tensors.  Storage layout is not modelled: tensors are
    contiguous, as [view] requires. *)
#[warnings="-register-all"]
Inductive ndarray (A : Type) : Type :=
  | Item (a : A)
  | Dim (items : list (ndarray A)).
Arguments Item {A} a.
Arguments Dim {A} items.

(** The elements in row-major order. *)
Fixpoint elements {A : Type} (t : ndarray A) : list A :=
  match t with
  | Item a => [a]
  | Dim items => concat (map elements items)
  end.

(** [t] is rectangular with the sizes [dims], outermost first. *)
Fixpoint has_shape {A : Type} (t : ndarray A) (dims : list nat) : bool :=
  match t, dims with
  | Item _, [] => true
  | Dim items, d :: ds =>
      Nat.eqb (length items) d && forallb (fun it => has_shape it ds) items
  | _, _ => false
  end.

(** The rows of a two-dimensional tensor. *)
Definition matrix {A : Type} (rows : list (list A)) : ndarray A :=
  Dim (map (fun r => Dim (map Item r)) rows).

Module Flatten.

(** [input_.size(0)] *)
Definition size0 {A : Type} (t : ndarray A) : result Z :=
  match t with
  | Item _ => Err IndexError
  | Dim items => Ok (Py.len items)
  end.

(** [input_.view(n, -1)]: the elements in order, cut into [n] rows of
    [numel / n]; the missing size cannot be inferred for [n = 0], and the
    element count must be a multiple of [n]. *)
Definition view_rows {A : Type} (t : ndarray A) (n : Z) : result (ndarray A) :=
  let els := elements t in
  let numel := Py.len els in
  if n =? 0 then Err RuntimeError
  else if numel mod n =? 0
  then Ok (matrix (map (fun k => chunk (numel / n) k els) (seq 0 (Z.to_nat n))))
  else Err RuntimeError.

Definition forward {A : Type} (input_ : ndarray A) : result (ndarray A) :=
  let? n := size0 input_ in
  view_rows input_ n.

End Flatten.

(** ** Small models to run the definitions on *)

Module Toy.

(** A stand-in for a tensor of logits: the classes its arg-max selects
    and the cross-entropy autograd derives from it. *)
Record logits : Type := Logits {
  lg_pred : list Z;
  lg_ce   : scalar
}.

Definition argmax (o : logits) : tensor (list Z) := labels (lg_pred o).

Definition cross_entropy (o : logits) (_ : tensor (list Z)) : result scalar :=
  Ok (lg_ce o).

Definition weight (st : model_state) : Q :=
  match params st with
  | p :: _ => p_data p
  | [] => 0
  end.

(** One weight [w]; head A predicts the sample, head B its complement;
    both losses are [w * w], with derivative [2 * w]. *)
Definition forward (st : model_state) (x : tensor (list Z))
  : result (logits * logits * model_state) :=
  let w := weight st in
  let ce := Scalar (w * w) [2 * w]%Q in
  Ok (Logits (t_data x) ce, Logits (map (fun v => 1 - v) (t_data x)) ce, st).

(** [model(x) = (0 * w * ones, 0 * w * ones)]: every logit is zero, the
    cross-entropy over two classes is ln 2 whatever the targets (here
    truncated to seven digits), and its derivative in [w] is 0. *)
Definition forward_flat (st : model_state) (x : tensor (list Z))
  : result (logits * logits * model_state) :=
  let ce := Scalar (6931472 # 10000000) [0%Q] in
  let out := Logits (map (fun _ => 0) (t_data x)) ce in
  Ok (out, out, st).

(** As [forward], and the forward pass flips the model's mode flag. *)
Definition forward_flip (st : model_state) (x : tensor (list Z))
  : result (logits * logits * model_state) :=
  let? (outs, st') := forward st x in
  Ok (outs, ModelState (params st') (negb (training st'))).

Definition model0 (flag : bool) : model_state :=
  ModelState [Param 1 None] flag.

Definition world0 (flag : bool) : world := World (model0 flag) ∅ [] ∅.

Definition batch0 : batch Z :=
Batch (Tensor Float32 Cpu [0; 1]) (Tensor Int64 Cpu [[0; 1]; [1; 0]]).

Definition data0 : list (batch Z) :=
[batch0; Batch (Tensor Float32 Cpu [1; 1]) (Tensor Int64 Cpu [[1; 0]; [0; 0]])].

Definition opt0 : sgd := SGD (1 # 10) 0 false.

End Toy.

(** A tensor of shape [2, 2, 2]. *)
Definition cube : ndarray Z :=
  Dim [Dim [Dim [Item 1; Item 2]; Dim [Item 3; Item 4]];
       Dim [Dim [Item 5; Item 6]; Dim [Item 7; Item 8]]].

(** As [Toy.forward], but the model refuses negative samples. *)
Definition forward_strict (st : model_state) (x : tensor (list Z))
  : result (Toy.logits * Toy.logits * model_state) :=
  if forallb (fun v => 0 <=? v) (t_data x) then Toy.forward st x
  else Err RuntimeError.

Definition bad_batch : batch Z :=
  Batch (Tensor Float32 Cpu [0; -1]) (Tensor Int64 Cpu [[0; 1]; [1; 0]]).

(** * Properties *)

(** ** The definitions at work *)

Example batch_data_ex1 :
  batch_data id false [1;2;3;4;5;6;7] ([0;1;0;1;0;1;0], [1;0;1;0;1;0;1]) 3
  = Ok [Batch (Tensor Float32 Cpu [1;2;3]) (Tensor Int64 Cpu [[0;1;0];[1;0;1]]);
        Batch (Tensor Float32 Cpu [4;5;6]) (Tensor Int64 Cpu [[1;0;1];[0;1;0]])].
Proof. reflexivity. Qed.

Example batch_data_ex2 :
  batch_data id false [1;2;3;4;5;6;7] ([0;1;0;1;0;1;0], [1;0;1;0;1;0;1]) (-3) = Ok [].
Proof. reflexivity. Qed.

Example batch_data_ex3 :
  batch_data id false [1;2;3;4;5;6;7] ([0;1;0;1;0;1;0], [1;0;1;0;1;0;1]) 0
  = Err ZeroDivisionError.
Proof. reflexivity. Qed.

Example compute_accuracy_ex1 :
  compute_accuracy (labels [1;2;3;4]) (labels [1;0;3;0]) = Ok (Fin (2 # 4)).
Proof. reflexivity. Qed.

Example compute_accuracy_ex2 :
  compute_accuracy (labels []) (labels []) = Ok NaN.
Proof. reflexivity. Qed.

(** ** Builtins *)

Lemma int_div_pos (n b : Z) :
  0 <= n -> 0 < b -> Py.int_div n b = Ok (n / b).
Proof.
  intros Hn Hb. unfold Py.int_div.
  destruct (Z.eqb_spec b 0) as [->|_]; [lia|].
  by rewrite Z.quot_div_nonneg by lia.
Qed.

Lemma range_len_multiple (q b : Z) :
  0 <= q -> 0 < b -> Py.range_len 0 (q * b) b = q.
Proof.
  intros Hq Hb. unfold Py.range_len.
  destruct (Z.ltb_spec 0 b); [|lia].
  destruct (Z.ltb_spec 0 (q * b)) as [Hpos|Hle].
  - assert (0 < q) by nia.
    replace (q * b - 0 - 1) with ((q - 1) * b + (b - 1)) by lia.
    rewrite Z.div_add_l by lia. rewrite Z.div_small by lia. lia.
  - nia.
Qed.

Lemma range_multiple (q b : Z) :
  0 <= q -> 0 < b ->
  Py.range 0 (q * b) b = Ok (map (fun k : nat => Z.of_nat k * b) (seq 0 (Z.to_nat q))).
Proof.
  intros Hq Hb. unfold Py.range.
  destruct (Z.eqb_spec b 0); [lia|].
  by rewrite range_len_multiple.
Qed.


Lemma range_unit (n : Z) :
  Py.range 1 (n + 1) 1 = Ok (map (fun k : nat => 1 + Z.of_nat k) (seq 0 (Z.to_nat n))).
Proof.
  unfold Py.range, Py.range_len. cbn [Z.eqb Z.ltb Z.compare].
  f_equal. destruct (Z.ltb_spec 1 (n + 1)).
  - rewrite Z.div_1_r. replace (n + 1 - 1 - 1 + 1) with n by lia.
    apply map_ext. intros k. lia.
  - replace (Z.to_nat n) with 0%nat by lia. done.
Qed.

Lemma slice_inside {A : Type} (l : list A) (i j : Z) :
  0 <= i <= j -> j <= Py.len l ->
  Py.slice l i j = take (Z.to_nat (j - i)) (drop (Z.to_nat i) l).
Proof.
  intros Hij Hj. unfold Py.slice, Py.clamp.
  destruct (Z.ltb_spec i 0); [lia|].
  destruct (Z.ltb_spec j 0); [lia|].
  by rewrite !Z.min_l by lia.
Qed.

Lemma for_each_map_ok {A B C : Type} (f : A -> result B) (g : C -> A) (h : C -> B)
    (l : list C) :
  (forall c, c ∈ l -> f (g c) = Ok (h c)) ->
  for_each f (map g l) = Ok (map h l).
Proof.
  induction l as [|c l IH]; intros Hf; [done|].
  cbn. rewrite Hf by left. cbn. rewrite IH; [done|].
  intros c' Hc'. apply Hf. by right.
Qed.


(** ** Chunks *)

Lemma chunk_length {A : Type} (b : Z) (k : nat) (l : list A) :
  0 < b -> (Z.of_nat k + 1) * b <= Py.len l -> Py.len (chunk b k l) = b.
Proof.
  intros Hb Hk. unfold chunk, Py.len in *.
  rewrite length_take, length_drop. nia.
Qed.

Lemma slice_chunk {A : Type} (b : Z) (k : nat) (l : list A) :
  0 < b -> (Z.of_nat k + 1) * b <= Py.len l ->
  Py.slice l (Z.of_nat k * b) (Z.of_nat k * b + b) = chunk b k l.
Proof.
  intros Hb Hk. rewrite slice_inside by lia. unfold chunk.
  f_equal; [f_equal; lia|]. f_equal.
  by rewrite Z2Nat.inj_mul, Nat2Z.id by lia.
Qed.

Lemma concat_chunks {A : Type} (b : Z) (q : nat) (l : list A) :
  concat (map (fun k => chunk b k l) (seq 0 q)) = take (q * Z.to_nat b) l.
Proof.
  induction q as [|q IH]; [done|].
  rewrite seq_S, map_app, concat_app, IH. cbn [map concat]. rewrite app_nil_r.
  unfold chunk. rewrite take_take_drop. f_equal. lia.
Qed.

Lemma full_chunks_fit (n b : Z) (k : nat) :
  0 <= n -> 0 < b -> (k < Z.to_nat (n / b))%nat -> (Z.of_nat k + 1) * b <= n.
Proof.
  intros Hn Hb Hk. pose proof (Z.mul_div_le n b Hb).
  assert (0 <= n / b) by (apply Z.div_pos; lia). nia.
Qed.

(** ** batch_data *)

Section BatchingFacts.

Variable Sample : Type.
Variable to_float32 : Sample -> Sample.
Variable cuda : bool.

Lemma batch_data_positive (x_data : list Sample) (y0 y1 : list Z) (b : Z) :
  0 < b -> length y0 = length x_data -> length y1 = length x_data ->
  batch_data to_float32 cuda x_data (y0, y1) b
  = Ok (map (nth_batch to_float32 cuda x_data y0 y1 b)
            (seq 0 (Z.to_nat (Py.len x_data / b)))).
Proof.
  intros Hb H0 H1. unfold batch_data.
  rewrite int_div_pos by (unfold Py.len; lia). cbn [rbind].
  assert (0 <= Py.len x_data / b) by (apply Z.div_pos; unfold Py.len; lia).
  rewrite range_multiple by lia. cbn [rbind].
  apply for_each_map_ok. intros k Hk.
  apply elem_of_seq in Hk.
  assert ((Z.of_nat k + 1) * b <= Py.len x_data)
    by (apply full_chunks_fit; unfold Py.len in *; lia).
  cbn [fst snd].
  rewrite !slice_chunk by (unfold Py.len in *; lia).
  unfold Torch.tensor_rows, Torch.rectangular. cbn [forallb].
  assert (length (chunk b k y1) = length (chunk b k y0)) as ->.
  { unfold chunk. rewrite !length_take, !length_drop. lia. }
  by rewrite Nat.eqb_refl.
Qed.

(** C1. With a positive batch size and label arrays as long as the input,
    [batch_data] returns floor(N/b) batches; the [k]-th batch holds the
    samples and both label slices of positions [k*b .. k*b+b), [b] of
    each; the batch inputs concatenated are the first floor(N/b)*b
    samples (converted to float32), in order, and the N mod b samples
    after them are in no batch. *)
Theorem batch_data_full_chunks (x_data : list Sample) (y0 y1 : list Z) (b : Z) :
  0 < b -> length y0 = length x_data -> length y1 = length x_data ->
  exists batches,
    batch_data to_float32 cuda x_data (y0, y1) b = Ok batches /\
    Py.len batches = Py.len x_data / b /\
    (forall (k : nat) bt, batches !! k = Some bt ->
       t_data (b_x bt)
         = map to_float32 (Py.slice x_data (Z.of_nat k * b) (Z.of_nat k * b + b)) /\
       t_data (b_y bt)
         = [Py.slice y0 (Z.of_nat k * b) (Z.of_nat k * b + b);
            Py.slice y1 (Z.of_nat k * b) (Z.of_nat k * b + b)] /\
       Py.len (t_data (b_x bt)) = b /\
       Forall (fun r => Py.len r = b) (t_data (b_y bt))) /\
    concat (map (fun bt => t_data (b_x bt)) batches)
      = map to_float32 (take (Z.to_nat (Py.len x_data / b * b)) x_data) /\
    x_data = take (Z.to_nat (Py.len x_data / b * b)) x_data
             ++ drop (Z.to_nat (Py.len x_data / b * b)) x_data /\
    Py.len (drop (Z.to_nat (Py.len x_data / b * b)) x_data) = Py.len x_data mod b.
Proof.
  intros Hb H0 H1.
  assert (Hlen : 0 <= Py.len x_data) by (unfold Py.len; lia).
  assert (Hq : 0 <= Py.len x_data / b) by (apply Z.div_pos; lia).
  eexists. split; [by apply batch_data_positive|].
  split; [unfold Py.len at 1; rewrite length_map, length_seq; lia|].
  split; [|split; [|split]].
  - intros k bt Hk. rewrite list_lookup_fmap in Hk.
    destruct (seq _ _ !! k) as [k'|] eqn:Hs; [|done].
    apply lookup_seq in Hs as [-> Hlt]. injection Hk as <-. cbn in *.
    assert ((Z.of_nat k + 1) * b <= Py.len x_data) by by apply full_chunks_fit.
    rewrite !slice_chunk by (unfold Py.len in *; lia).
    split; [done|]. split; [done|]. split.
    + unfold Py.len at 1. rewrite length_map. by apply chunk_length.
    + repeat constructor; apply chunk_length; unfold Py.len in *; lia.
  - rewrite map_map. cbn.
    rewrite <- (map_map (fun k => chunk b k x_data) (map to_float32)).
    rewrite <- concat_map, concat_chunks. do 2 f_equal.
    rewrite Z2Nat.inj_mul by lia. done.
  - by rewrite take_drop.
  - unfold Py.len at 1. rewrite length_drop.
    pose proof (Z.mul_div_le (Py.len x_data) b Hb).
    rewrite Z.mod_eq by lia. unfold Py.len in *. lia.
Qed.

Lemma batch_data_negative (x_data : list Sample) (y_data : list Z * list Z) (b : Z) :
  b < 0 -> batch_data to_float32 cuda x_data y_data b = Ok [].
Proof.
  intros Hb. unfold batch_data, Py.int_div.
  destruct (Z.eqb_spec b 0); [lia|]. cbn [rbind].
  unfold Py.range, Py.range_len.
  destruct (Z.eqb_spec b 0); [lia|].
  destruct (Z.ltb_spec 0 b); [lia|].
  assert (0 <= Py.len x_data ÷ b * b).
  { pose proof (Z.quot_opp_r (Py.len x_data) b ltac:(lia)).
    assert (0 <= Py.len x_data ÷ - b)
      by (apply Z.quot_pos; unfold Py.len; lia).
    nia. }
  destruct (Z.ltb_spec (Py.len x_data ÷ b * b) 0); [lia|]. done.
Qed.

Lemma batch_data_zero (x_data : list Sample) (y_data : list Z * list Z) :
  batch_data to_float32 cuda x_data y_data 0 = Err ZeroDivisionError.
Proof. done. Qed.



(** C7, as the code has it.  No batch size is validated.  A negative
    batch size yields zero batches and no error; batch size 0 raises
    ZeroDivisionError from the division that computes [N], before any
    batch or tensor is built. *)
Theorem batch_data_nonpositive (x_data : list Sample) (y_data : list Z * list Z)
    (b : Z) :
  (b < 0 -> batch_data to_float32 cuda x_data y_data b = Ok []) /\
  (b = 0 -> batch_data to_float32 cuda x_data y_data b = Err ZeroDivisionError).
Proof.
  split; [apply batch_data_negative|]. intros ->. apply batch_data_zero.
Qed.

End BatchingFacts.

(** ** compute_accuracy *)

Lemma count_true_zip (p y : list Z) :
  Np.count_true (zip_with Z.eqb p y) = agreements p y.
Proof.
  unfold Np.count_true. revert y.
  induction p as [|a p IH]; intros [|b y]; cbn; try done.
  rewrite IH. by destruct (a =? b).
Qed.

Lemma agreements_refl (p : list Z) : agreements p p = length p.
Proof.
  induction p as [|a p IH]; [done|]. cbn. rewrite Z.eqb_refl, IH. done.
Qed.

Lemma agreements_none (p y : list Z) :
  Forall2 (fun a b => a <> b) p y -> agreements p y = 0%nat.
Proof.
  induction 1 as [|a b p y Hab _ IH]; [done|]. cbn.
  destruct (Z.eqb_spec a b); [done|]. by rewrite IH.
Qed.

Lemma compute_accuracy_fraction (predictions gold : tensor (list Z)) :
  let p := t_data predictions in
  let y := t_data gold in
  length p = length y -> p <> [] ->
  compute_accuracy predictions gold
  = Ok (Fin (Z.of_nat (agreements p y) # Pos.of_nat (length p))).
Proof.
  intros p y Hlen Hne. unfold compute_accuracy, tensor2array, Np.equal.
  fold p y. rewrite Hlen, Nat.eqb_refl. cbn. unfold Np.mean_bool.
  destruct (zip_with Z.eqb p y) as [|e es] eqn:Hz.
  - destruct p; [done|]. by destruct y.
  - rewrite <- Hz, count_true_zip, length_zip_with.
    do 3 f_equal. lia.
Qed.

(** C4, as the code has it.  On two label vectors of the same nonzero
    length, [compute_accuracy] returns the number of positions where they
    agree divided by the length: 1 for identical vectors, 0 for vectors
    that differ everywhere, 1/2 when exactly half of the positions agree. *)
Theorem compute_accuracy_nonempty (predictions gold : tensor (list Z)) :
  length (t_data predictions) = length (t_data gold) ->
  t_data predictions <> [] ->
  exists q,
    compute_accuracy predictions gold = Ok (Fin q) /\
    (q == inject_Z (Z.of_nat (agreements (t_data predictions) (t_data gold)))
          / inject_Z (Py.len (t_data predictions)))%Q /\
    (t_data predictions = t_data gold -> (q == 1)%Q) /\
    (Forall2 (fun a b => a <> b) (t_data predictions) (t_data gold) -> (q == 0)%Q) /\
    ((2 * agreements (t_data predictions) (t_data gold))%nat
       = length (t_data predictions) -> (q == 1 # 2)%Q).
Proof.
  intros Hlen Hne. eexists.
  split; [by apply compute_accuracy_fraction|].
  set (p := t_data predictions) in *. set (y := t_data gold) in *.
  assert (Hpos : (0 < length p)%nat) by (destruct p; [done|cbn; lia]).
  assert (Hden : Z.pos (Pos.of_nat (length p)) = Z.of_nat (length p)).
  { destruct (length p) eqn:E; [lia|]. rewrite <- E. lia. }
  split; [|split; [|split]].
  - unfold Py.len. by rewrite Qmake_Qdiv, Hden.
  - intros <-. rewrite agreements_refl. unfold Qeq. cbn. lia.
  - intros Hall. rewrite agreements_none by done. unfold Qeq. cbn. lia.
  - intros Hhalf. unfold Qeq. cbn. lia.
Qed.

(** On empty vectors the mean is not-a-number: identical vectors that do
    not score 1. *)
Lemma compute_accuracy_empty_nan :
  t_data (labels []) = t_data (labels []) /\
  length (t_data (labels [])) = length (t_data (labels [])) /\
  compute_accuracy (labels []) (labels []) = Ok NaN /\
  (forall q, compute_accuracy (labels []) (labels []) <> Ok (Fin q)).
Proof. repeat split; done. Qed.

(** ** The training update *)

Lemma train_update_ok (optimizer : sgd) (j : scalar) (w : world) :
  exists st,
    train_update optimizer j w
    = Ok (tt, World (ModelState (stepped_params optimizer j w) (training (w_model w)))
                    st
                    (w_log w ++ [EvZeroGrad; EvBackward j; EvStep])
                    (w_fs w)).
Proof.
  eexists. unfold train_update, bind, Optim.zero_grad, Optim.backward, Optim.step,
    bind, get_model, put_model, emit, stepped_params. cbn.
  rewrite <- !app_assoc. cbn. reflexivity.
Qed.


(** ** The loop over batches *)

Section TrainingFacts.

Variable Sample Logits : Type.
Variable argmax : Logits -> tensor (list Z).
Variable cross_entropy : Logits -> tensor (list Z) -> result scalar.
Variable forward :
  model_state -> tensor (list Sample) -> result (Logits * Logits * model_state).

Lemma run_batch_inv (optimizer : sgd) (flag : bool) (t t' : tallies)
    (b : batch Sample) (w w' : world) :
  run_batch argmax cross_entropy forward optimizer flag t b w = Ok (t', w') ->
  exists r st,
    observed argmax cross_entropy forward (w_model w) b r st /\
    t' = record_all t [r] /\
    if flag
    then train_update optimizer (joint (o_loss1 r) (o_loss2 r)) (with_model w st)
         = Ok (tt, w')
    else w' = with_model w st.
Proof.
  unfold run_batch, bind at 1, call_model. intros Hrun.
  destruct (forward (w_model w) (b_x b)) as [[[out1 out2] st]|] eqn:Hf; [|done].
  unfold bind at 1, lift at 1 in Hrun.
  destruct (row (b_y b) 0) as [y0|] eqn:Hy0; [|done].
  unfold bind at 1, lift at 1 in Hrun.
  destruct (compute_accuracy (argmax out1) y0) as [acc1|] eqn:Ha1; [|done].
  unfold bind at 1, lift at 1 in Hrun.
  destruct (row (b_y b) 1) as [y1|] eqn:Hy1; [|done].
  unfold bind at 1, lift at 1 in Hrun.
  destruct (compute_accuracy (argmax out2) y1) as [acc2|] eqn:Ha2; [|done].
  unfold bind at 1, lift at 1 in Hrun.
  destruct (cross_entropy out1 y0) as [loss1|] eqn:Hl1; [|done].
  unfold bind at 1, lift at 1 in Hrun.
  destruct (cross_entropy out2 y1) as [loss2|] eqn:Hl2; [|done].
  exists (Observation loss1 loss2 acc1 acc2), st.
  split; [by exists out1, out2, y0, y1|].
  destruct flag.
  - unfold train_update, with_model.
    unfold bind in Hrun |- *.
    destruct (Optim.zero_grad _) as [[[] w1]|]; [|done].
    destruct (Optim.backward _ w1) as [[[] w2]|]; [|done].
    destruct (Optim.step optimizer w2) as [[[] w3]|]; [|done].
    unfold ret in Hrun. by injection Hrun as <- <-.
  - unfold ret in Hrun. by injection Hrun as <- <-.
Qed.

Lemma record_all_cons (t : tallies) (r : observation) (rs : list observation) :
  record_all (record_all t [r]) rs = record_all t (r :: rs).
Proof. unfold record_all. cbn. by rewrite <- !app_assoc. Qed.

Lemma epoch_loop_inv (optimizer : sgd) (flag : bool) (data : list (batch Sample))
    (t t' : tallies) (w w' : world) :
  for_loop (run_batch argmax cross_entropy forward optimizer flag) data t w
    = Ok (t', w') ->
  exists rs,
    Forall2 (fun b r => exists st st',
               observed argmax cross_entropy forward st b r st') data rs /\
    t' = record_all t rs /\
    w_log w' = w_log w ++ (if flag then concat (map update_events rs) else []) /\
    w_fs w' = w_fs w /\
    (flag = false -> w_opt w' = w_opt w) /\
    (flag = false -> keeps_params forward -> params (w_model w') = params (w_model w)).
Proof.
  revert t w. induction data as [|b data IH]; intros t w Hrun; cbn in Hrun.
  - unfold ret in Hrun. injection Hrun as <- <-. exists [].
    split; [constructor|]. split.
    { destruct t. unfold record_all. cbn. by rewrite !app_nil_r. }
    destruct flag; cbn; by rewrite ?app_nil_r.
  - unfold bind in Hrun.
    destruct (run_batch _ _ _ _ _ _ _ _) as [[t1 w1]|] eqn:Hb; [|done].
    destruct (run_batch_inv _ _ _ _ _ _ _ Hb) as (r & st & Hobs & -> & Hw1).
    destruct (IH _ _ Hrun) as (rs & Hall & -> & Hlog & Hfs & Hopt & Hpar).
    exists (r :: rs). split; [constructor; eauto|].
    split; [apply record_all_cons|].
    destruct flag.
    + destruct (train_update_ok optimizer (joint (o_loss1 r) (o_loss2 r))
                  (with_model w st)) as (os & Hup).
      rewrite Hup in Hw1. injection Hw1 as <-. cbn in *.
      rewrite Hlog, Hfs. rewrite <- app_assoc. done.
    + subst w1. cbn in *. rewrite Hlog, Hfs, Hopt by done.
      do 3 (split; [done|]). intros _ Hkeep. rewrite Hpar by done.
      destruct Hobs as (out1 & out2 & y0 & y1 & Hf & _). by apply Hkeep in Hf.
Qed.

Lemma run_epoch_inv (optimizer : sgd) (data : list (batch Sample))
    (w w' : world) (res : (npfloat * npfloat) * (npfloat * npfloat)) :
  run_epoch argmax cross_entropy forward data optimizer w = Ok (res, w') ->
  exists t,
    for_loop (run_batch argmax cross_entropy forward optimizer
                (training (w_model w))) data (Tallies [] [] [] []) w = Ok (t, w') /\
    res = ((Np.mean (losses_first_label t), Np.mean (losses_second_label t)),
           (Np.mean (batch_accuracies_first t), Np.mean (batch_accuracies_second t))).
Proof.
  unfold run_epoch, bind, get_model, ret. intros Hrun.
  destruct (for_loop _ _ _ _) as [[t w1]|]; [|done].
  injection Hrun as <- <-. by exists t.
Qed.

Lemma mean_of_numbers (qs : list Q) :
  qs <> [] ->
  Np.mean (map Fin qs) = Fin (Qsum qs / inject_Z (Py.len qs)).
Proof.
  intros Hne. unfold Np.mean.
  assert (Hsum : Np.sum (map Fin qs) = Fin (Qsum qs)).
  { clear Hne. induction qs as [|q qs IH]; [done|]. cbn. by rewrite IH. }
  rewrite Hsum, length_map. destruct qs; [done|]. reflexivity.
Qed.

(** C2. In EVAL mode [run_epoch] changes no parameter: with a model whose
    forward pass leaves the parameters alone, every parameter value and
    gradient is the same after the call as before, the optimizer state is
    untouched and no [zero_grad], [backward] or [step] is called. *)
Theorem run_epoch_eval_frame (optimizer : sgd) (data : list (batch Sample))
    (w w' : world) (res : (npfloat * npfloat) * (npfloat * npfloat)) :
  keeps_params forward ->
  training (w_model w) = false ->
  run_epoch argmax cross_entropy forward data optimizer w = Ok (res, w') ->
  params (w_model w') = params (w_model w) /\
  w_opt w' = w_opt w /\
  w_log w' = w_log w /\
  w_fs w' = w_fs w.
Proof.
  intros Hkeep Hmode Hrun.
  destruct (run_epoch_inv _ _ _ _ _ Hrun) as (t & Hloop & _).
  rewrite Hmode in Hloop.
  destruct (epoch_loop_inv _ _ _ _ _ _ _ Hloop) as (rs & _ & _ & Hlog & Hfs & Hopt & Hpar).
  rewrite app_nil_r in Hlog. auto.
Qed.

(** C3. In TRAIN mode every batch is followed by exactly the calls
    [zero_grad], [backward] on the objective 0.5 * (loss1 + loss2), [step],
    in this order, where loss1 and loss2 are the two cross-entropy losses of
    that batch; the value of the objective is half the sum of their values
    and its gradient half the sum of their gradients. *)
Theorem run_epoch_train_joint_objective (optimizer : sgd)
    (data : list (batch Sample)) (w w' : world)
    (res : (npfloat * npfloat) * (npfloat * npfloat)) :
  training (w_model w) = true ->
  run_epoch argmax cross_entropy forward data optimizer w = Ok (res, w') ->
  exists rs,
    Forall2 (fun b r => exists st st',
               observed argmax cross_entropy forward st b r st') data rs /\
    w_log w'
    = w_log w
      ++ flat_map (fun r => [EvZeroGrad;
                             EvBackward (s_scale (1 # 2)
                                           (s_add (o_loss1 r) (o_loss2 r)));
                             EvStep]) rs /\
    Forall (fun r =>
              let j := s_scale (1 # 2) (s_add (o_loss1 r) (o_loss2 r)) in
              s_value j = ((1 # 2) * (s_value (o_loss1 r) + s_value (o_loss2 r)))%Q /\
              s_grad j = map (Qmult (1 # 2))
                             (zip_with Qplus (s_grad (o_loss1 r)) (s_grad (o_loss2 r))))
           rs.
Proof.
  intros Hmode Hrun.
  destruct (run_epoch_inv _ _ _ _ _ Hrun) as (t & Hloop & _).
  rewrite Hmode in Hloop.
  destruct (epoch_loop_inv _ _ _ _ _ _ _ Hloop) as (rs & Hall & _ & Hlog & _).
  exists rs. split; [done|]. split.
  - rewrite Hlog. f_equal. clear. induction rs as [|r rs IH]; [done|].
    cbn. by rewrite IH.
  - apply Forall_forall. by intros r _.
Qed.

(** C6. [run_epoch] returns the means over the batches of the two losses
    and of the two accuracies, one value per batch and head; the mean of
    [n] > 0 numbers is their sum divided by [n]; on an empty batch sequence
    the call does not raise and the four means are not-a-number. *)
Theorem run_epoch_means (optimizer : sgd) (w : world) :
  run_epoch argmax cross_entropy forward [] optimizer w
    = Ok (((NaN, NaN), (NaN, NaN)), w) /\
  (forall data res w',
     run_epoch argmax cross_entropy forward data optimizer w = Ok (res, w') ->
     exists rs,
       Forall2 (fun b r => exists st st',
                  observed argmax cross_entropy forward st b r st') data rs /\
       res = ((Np.mean (map (fun r => Fin (s_value (o_loss1 r))) rs),
               Np.mean (map (fun r => Fin (s_value (o_loss2 r))) rs)),
              (Np.mean (map o_acc1 rs), Np.mean (map o_acc2 rs)))) /\
  (forall qs, qs <> [] ->
     Np.mean (map Fin qs) = Fin (Qsum qs / inject_Z (Py.len qs))).
Proof.
  split; [done|]. split; [|apply mean_of_numbers].
  intros data res w' Hrun.
  destruct (run_epoch_inv _ _ _ _ _ Hrun) as (t & Hloop & ->).
  destruct (epoch_loop_inv _ _ _ _ _ _ _ Hloop) as (rs & Hall & -> & _).
  by exists rs.
Qed.

(** C9. The mode flag read before the loop decides for every batch
    whether the update runs, whatever the forward pass does to the flag
    meanwhile: the calls of an epoch are [zero_grad], [backward], [step]
    once per batch when the flag was set at the start, and none
    otherwise. *)
Theorem run_epoch_mode_latched (optimizer : sgd) (data : list (batch Sample))
    (w w' : world) (res : (npfloat * npfloat) * (npfloat * npfloat)) :
  run_epoch argmax cross_entropy forward data optimizer w = Ok (res, w') ->
  exists evs,
    w_log w' = w_log w ++ evs /\
    map call_of evs
    = if training (w_model w)
      then concat (replicate (length data) [CZeroGrad; CBackward; CStep])
      else [].
Proof.
  intros Hrun.
  destruct (run_epoch_inv _ _ _ _ _ Hrun) as (t & Hloop & _).
  destruct (epoch_loop_inv _ _ _ _ _ _ _ Hloop) as (rs & Hall & _ & Hlog & _).
  eexists. split; [exact Hlog|].
  destruct (training (w_model w)); [|done].
  apply Forall2_length in Hall. rewrite Hall. clear.
  induction rs as [|r rs IH]; [done|]. cbn. by rewrite IH.
Qed.




(** ** The loop over epochs *)

Lemma update_events_quiet (rs : list observation) :
  omap mark_of (concat (map update_events rs)) = [] /\
  omap save_of (concat (map update_events rs)) = [].
Proof. induction rs as [|r rs [IH1 IH2]]; [done|]. cbn. by rewrite IH1, IH2. Qed.

Lemma run_epoch_quiet (optimizer : sgd) (data : list (batch Sample))
    (w w' : world) (res : (npfloat * npfloat) * (npfloat * npfloat)) :
  run_epoch argmax cross_entropy forward data optimizer w = Ok (res, w') ->
  exists evs,
    w_log w' = w_log w ++ evs /\
    omap mark_of evs = [] /\ omap save_of evs = [] /\
    w_fs w' = w_fs w.
Proof.
  intros Hrun.
  destruct (run_epoch_inv _ _ _ _ _ Hrun) as (t & Hloop & _).
  destruct (epoch_loop_inv _ _ _ _ _ _ _ Hloop) as (rs & _ & _ & Hlog & Hfs & _).
  eexists. split; [exact Hlog|].
  destruct (training (w_model w)); [|done].
  destruct (update_events_quiet rs). done.
Qed.

Lemma train_epoch_inv (train_data dev_data : list (batch Sample)) (optimizer : sgd)
    (epoch : Z) (w w' : world) (u : unit) :
  train_epoch argmax cross_entropy forward train_data dev_data optimizer tt epoch w
    = Ok (u, w') ->
  exists evs,
    w_log w' = w_log w ++ evs ++ [EvSave checkpoint_path (snapshot (w_model w'))] /\
    omap mark_of evs = [MHeader epoch; MTrain; MDev] /\
    omap save_of evs = [] /\
    w_fs w' = <[checkpoint_path := snapshot (w_model w')]> (w_fs w).
Proof.
  unfold train_epoch, bind at 1, emit at 1. intros Hrun.
  unfold bind at 1, set_mode at 1, bind at 1, get_model, put_model in Hrun.
  unfold bind at 1 in Hrun.
  destruct (run_epoch _ _ _ train_data _ _) as [[[loss acc] w1]|] eqn:Htrain; [|done].
  unfold bind at 1, emit at 1 in Hrun.
  unfold bind at 1, set_mode at 1, bind at 1, get_model, put_model in Hrun.
  unfold bind at 1 in Hrun.
  destruct (run_epoch _ _ _ dev_data _ _) as [[[v_loss v_acc] w2]|] eqn:Hdev; [|done].
  unfold bind at 1, emit at 1, save in Hrun. injection Hrun as _ <-.
  destruct (run_epoch_quiet _ _ _ _ _ Htrain) as (e1 & Hl1 & Hm1 & Hs1 & Hf1).
  destruct (run_epoch_quiet _ _ _ _ _ Hdev) as (e2 & Hl2 & Hm2 & Hs2 & Hf2).
  cbn in *.
  exists ([EvPrint (Header epoch)] ++ e1
          ++ [EvPrint (TrainMetrics loss.1 acc.1 loss.2 acc.2)] ++ e2
          ++ [EvPrint (DevMetrics v_loss.1 v_acc.1 v_loss.2 v_acc.2)]).
  split; [|split; [|split]].
  - rewrite Hl2, Hl1. by rewrite <- !app_assoc.
  - rewrite !omap_app, Hm1, Hm2. done.
  - rewrite !omap_app, Hs1, Hs2. done.
  - by rewrite Hf2, Hf1.
Qed.

Lemma epochs_loop_inv (train_data dev_data : list (batch Sample)) (optimizer : sgd)
    (n s : nat) (w w' : world) (u : unit) :
  for_loop (train_epoch argmax cross_entropy forward train_data dev_data optimizer)
           (map (fun k : nat => 1 + Z.of_nat k) (seq s n)) tt w = Ok (u, w') ->
  exists evs,
    w_log w' = w_log w ++ evs /\
    omap mark_of evs = concat (map epoch_marks (seq s n)) /\
    map fst (omap save_of evs) = replicate n checkpoint_path /\
    (n = 0%nat -> w' = w /\ evs = []) /\
    (n <> 0%nat ->
     (exists pre, evs = pre ++ [EvSave checkpoint_path (snapshot (w_model w'))]) /\
     w_fs w' = <[checkpoint_path := snapshot (w_model w')]> (w_fs w)).
Proof.
  revert s w. induction n as [|n IH]; intros s w Hrun; cbn in Hrun.
  - unfold ret in Hrun. injection Hrun as _ <-. exists [].
    rewrite app_nil_r. repeat split; done.
  - unfold bind in Hrun.
    destruct (train_epoch _ _ _ _ _ _ _ _ _) as [[[] w1]|] eqn:Hfirst; [|done].
    destruct (train_epoch_inv _ _ _ _ _ _ _ Hfirst) as (e1 & Hl1 & Hm1 & Hs1 & Hf1).
    destruct (IH _ _ Hrun) as (rest & Hl & Hm & Hs & Hzero & Hmore).
    exists ((e1 ++ [EvSave checkpoint_path (snapshot (w_model w1))]) ++ rest).
    split; [by rewrite Hl, Hl1, <- !app_assoc|].
    split; [rewrite !omap_app, Hm1, Hm; done|].
    split; [rewrite !omap_app, !map_app, Hs1, Hs; done|].
    split; [done|]. intros _.
    destruct n as [|n].
    + destruct Hzero as [-> ->]; [done|]. rewrite app_nil_r. eauto.
    + destruct Hmore as [[pre ->] Hfs]; [done|]. split.
      * eexists. by rewrite app_assoc.
      * by rewrite Hfs, Hf1, insert_insert_eq.
Qed.

(** C5. A run of [train_model] over [n] epochs writes the checkpoint [n]
    times (none when [n] is not positive), always to the one hard-coded
    path, each epoch printing its header, its training metrics and its
    validation metrics before its write; the last event of the run is the
    write of the final model state, which is what the file holds
    afterwards, in place of whatever it held before. *)
Theorem train_model_checkpoints (train_data dev_data : list (batch Sample))
    (lr momentum : Q) (nesterov : bool) (n_epochs : Z) (w w' : world) (u : unit) :
  train_model argmax cross_entropy forward train_data dev_data
              lr momentum nesterov n_epochs w = Ok (u, w') ->
  exists evs,
    w_log w' = w_log w ++ evs /\
    Py.len (omap save_of evs) = Z.max 0 n_epochs /\
    Forall (fun s => fst s = checkpoint_path) (omap save_of evs) /\
    omap mark_of evs = concat (map epoch_marks (seq 0 (Z.to_nat n_epochs))) /\
    (0 < n_epochs ->
     (exists pre, evs = pre ++ [EvSave checkpoint_path (snapshot (w_model w'))]) /\
     w_fs w' = <[checkpoint_path := snapshot (w_model w')]> (w_fs w)) /\
    (n_epochs <= 0 -> w_fs w' = w_fs w).
Proof.
  unfold train_model, bind at 1. intros Hrun.
  destruct (Optim.make _ _ _ w) as [[optimizer w0]|] eqn:Hmake; [|done].
  assert (Hw0 : w_log w0 = w_log w /\ w_fs w0 = w_fs w).
  { unfold Optim.make in Hmake. destruct (params _); [done|].
    destruct (_ && _); [|done]. by injection Hmake as _ <-. }
  destruct Hw0 as [Hlog0 Hfs0].
  rewrite range_unit in Hrun. unfold bind at 1, lift in Hrun.
  destruct (epochs_loop_inv _ _ _ _ _ _ _ _ Hrun) as (evs & Hl & Hm & Hs & Hzero & Hmore).
  exists evs. rewrite <- Hlog0, <- Hfs0.
  split; [done|]. split.
  { unfold Py.len. rewrite <- (length_map fst), Hs, length_replicate. lia. }
  split.
  { apply Forall_forall. intros sv Hin.
    assert (Hfst : fst sv ∈ map fst (omap save_of evs)) by by apply list_elem_of_fmap_2.
    rewrite Hs in Hfst. by apply elem_of_replicate in Hfst as [? _]. }
  split; [done|]. split.
  - intros Hpos. apply Hmore. lia.
  - intros Hle. destruct Hzero as [-> _]; [lia|done].
Qed.

End TrainingFacts.

(** ** The statements on concrete runs *)

Lemma toy_forward_keeps_params : keeps_params Toy.forward.
Proof. intros st x outs st' H. unfold Toy.forward in H. by injection H as _ <-. Qed.

Lemma toy_forward_flat_keeps_params : keeps_params Toy.forward_flat.
Proof. intros st x outs st' H. unfold Toy.forward_flat in H. by injection H as _ <-. Qed.

Lemma batch_data_full_chunks_witness :
  exists batches,
    batch_data id false [1; 2; 3; 4; 5; 6; 7]
               ([0; 1; 0; 1; 0; 1; 0], [1; 0; 1; 0; 1; 0; 1]) 3 = Ok batches /\
    Py.len batches = 2.
Proof.
  destruct (batch_data_full_chunks Z id false [1; 2; 3; 4; 5; 6; 7]
              [0; 1; 0; 1; 0; 1; 0] [1; 0; 1; 0; 1; 0; 1] 3)
    as (batches & Hrun & Hlen & _); [lia | reflexivity | reflexivity |].
  exists batches. split; [exact Hrun | exact Hlen].
Defined.


Lemma batch_data_nonpositive_witness :
  batch_data id false [1; 2; 3] ([0; 1; 0], [1; 0; 1]) (-2) = Ok [] /\
  batch_data id false [1; 2; 3] ([0; 1; 0], [1; 0; 1]) 0 = Err ZeroDivisionError.
Proof.
  split.
  - apply (proj1 (batch_data_nonpositive Z id false [1; 2; 3]
                    ([0; 1; 0], [1; 0; 1]) (-2))). lia.
  - apply (proj2 (batch_data_nonpositive Z id false [1; 2; 3]
                    ([0; 1; 0], [1; 0; 1]) 0)). reflexivity.
Defined.

(** Batch size 0 does not yield zero batches: the call raises. *)
Lemma batch_data_zero_raises :
  0 <= 0 /\
  batch_data id false [1; 2; 3] ([0; 1; 0], [1; 0; 1]) 0 = Err ZeroDivisionError /\
  batch_data id false [1; 2; 3] ([0; 1; 0], [1; 0; 1]) 0 <> Ok [].
Proof. split; [lia|]. split; [reflexivity|discriminate]. Qed.

Lemma compute_accuracy_nonempty_witness :
  exists q, compute_accuracy (labels [1; 2; 3; 4]) (labels [1; 0; 3; 0]) = Ok (Fin q) /\
            (q == 1 # 2)%Q.
Proof.
  destruct (compute_accuracy_nonempty (labels [1; 2; 3; 4]) (labels [1; 0; 3; 0]))
    as (q & Hrun & _ & _ & _ & Hhalf); [reflexivity | discriminate |].
  exists q. split; [exact Hrun | apply Hhalf; reflexivity].
Defined.

Lemma run_epoch_eval_frame_witness :
  exists res w',
    run_epoch Toy.argmax Toy.cross_entropy Toy.forward Toy.data0 Toy.opt0
              (Toy.world0 false) = Ok (res, w') /\
    params (w_model w') = params (w_model (Toy.world0 false)).
Proof.
  eexists _, _. split; [vm_compute; reflexivity|].
  refine (proj1 (run_epoch_eval_frame Z Toy.logits Toy.argmax Toy.cross_entropy
                   Toy.forward Toy.opt0 Toy.data0 (Toy.world0 false) _ _
                   toy_forward_keeps_params _ _)).
  - reflexivity.
  - vm_compute; reflexivity.
Defined.

Lemma run_epoch_train_joint_objective_witness :
  exists res w' rs,
    run_epoch Toy.argmax Toy.cross_entropy Toy.forward Toy.data0 Toy.opt0
              (Toy.world0 true) = Ok (res, w') /\
    w_log w'
    = flat_map (fun r => [EvZeroGrad;
                          EvBackward (s_scale (1 # 2) (s_add (o_loss1 r) (o_loss2 r)));
                          EvStep]) rs.
Proof.
  assert (Hrun : exists res w',
             run_epoch Toy.argmax Toy.cross_entropy Toy.forward Toy.data0 Toy.opt0
                       (Toy.world0 true) = Ok (res, w'))
    by (eexists _, _; vm_compute; reflexivity).
  destruct Hrun as (res & w' & Hrun).
  destruct (run_epoch_train_joint_objective Z Toy.logits Toy.argmax Toy.cross_entropy
              Toy.forward Toy.opt0 Toy.data0 (Toy.world0 true) w' res eq_refl Hrun)
    as (rs & _ & Hlog & _).
  exists res, w', rs. split; [exact Hrun | exact Hlog].
Defined.

Lemma run_epoch_means_witness :
  Np.mean (map Fin [1 # 2; 3 # 2]%Q)
  = Fin (Qsum [1 # 2; 3 # 2]%Q / inject_Z (Py.len [1 # 2; 3 # 2]%Q)).
Proof.
  apply (proj2 (proj2 (run_epoch_means Z Toy.logits Toy.argmax Toy.cross_entropy
                         Toy.forward Toy.opt0 (Toy.world0 true)))).
  discriminate.
Defined.

(** The forward pass clears the mode flag during the first batch; the
    update still runs for both batches. *)
Lemma run_epoch_mode_latched_witness :
  exists res w' evs,
    run_epoch Toy.argmax Toy.cross_entropy Toy.forward_flip Toy.data0 Toy.opt0
              (Toy.world0 true) = Ok (res, w') /\
    w_log w' = evs /\
    map call_of evs = [CZeroGrad; CBackward; CStep; CZeroGrad; CBackward; CStep].
Proof.
  assert (Hrun : exists res w',
             run_epoch Toy.argmax Toy.cross_entropy Toy.forward_flip Toy.data0
                       Toy.opt0 (Toy.world0 true) = Ok (res, w'))
    by (eexists _, _; vm_compute; reflexivity).
  destruct Hrun as (res & w' & Hrun).
  destruct (run_epoch_mode_latched Z Toy.logits Toy.argmax Toy.cross_entropy
              Toy.forward_flip Toy.opt0 Toy.data0 (Toy.world0 true) w' res Hrun)
    as (evs & Hlog & Hcalls).
  exists res, w', evs. split; [exact Hrun|]. split; [exact Hlog | exact Hcalls].
Defined.



Lemma train_model_checkpoints_witness :
  exists w' evs,
    train_model Toy.argmax Toy.cross_entropy Toy.forward Toy.data0 Toy.data0
                (1 # 10) (9 # 10) false 2 (Toy.world0 true) = Ok (tt, w') /\
    w_log w' = evs /\
    Py.len (omap save_of evs) = 2 /\
    w_fs w' !! checkpoint_path = Some (snapshot (w_model w')).
Proof.
  assert (Hrun : exists w',
             train_model Toy.argmax Toy.cross_entropy Toy.forward Toy.data0 Toy.data0
                         (1 # 10) (9 # 10) false 2 (Toy.world0 true) = Ok (tt, w'))
    by (eexists _; vm_compute; reflexivity).
  destruct Hrun as (w' & Hrun).
  destruct (train_model_checkpoints Z Toy.logits Toy.argmax Toy.cross_entropy
              Toy.forward Toy.data0 Toy.data0 (1 # 10) (9 # 10) false 2
              (Toy.world0 true) w' tt Hrun)
    as (evs & Hlog & Hlen & _ & _ & Hlast & _).
  exists w', evs. split; [exact Hrun|]. split; [exact Hlog|]. split; [exact Hlen|].
  destruct Hlast as [_ Hfs]; [lia|]. rewrite Hfs. apply lookup_insert_eq.
Defined.

(** * Further properties *)

(** ** Flatten *)

Lemma ndarray_nested_ind {A : Type} (P : ndarray A -> Prop) :
  (forall a, P (Item a)) ->
  (forall items, Forall P items -> P (Dim items)) ->
  forall t, P t.
Proof.
  intros HItem HDim. fix IH 1. intros [a|items]; [apply HItem|].
  apply HDim. induction items as [|it items IHitems]; constructor; [apply IH|done].
Qed.

Lemma elements_length {A : Type} (t : ndarray A) (dims : list nat) :
  has_shape t dims = true -> length (elements t) = foldr Nat.mul 1%nat dims.
Proof.
  revert dims. induction t as [a|items IH] using ndarray_nested_ind;
    intros [|d ds] Hshape; cbn in Hshape; try done.
  apply andb_true_iff in Hshape as [Hlen Hall]. apply Nat.eqb_eq in Hlen. subst d.
  cbn [elements foldr]. induction IH as [|it items Hit _ IHitems]; [done|].
  cbn in Hall. apply andb_true_iff in Hall as [Hhd Htl].
  cbn. rewrite length_app, (Hit _ Hhd), (IHitems Htl). lia.
Qed.

Lemma chunk_concat {A : Type} (m : nat) (rows : list (list A)) (k : nat)
    (r : list A) :
  Forall (fun r' => length r' = m) rows -> rows !! k = Some r ->
  chunk (Z.of_nat m) k (concat rows) = r.
Proof.
  unfold chunk. rewrite Nat2Z.id. intros Hrows. revert k.
  induction Hrows as [|r0 rows Hr0 _ IH]; intros k Hk; [done|].
  destruct k as [|k]; cbn in Hk; cbn [concat].
  - injection Hk as ->. rewrite Nat.mul_0_l, drop_0. by rewrite take_app_length'.
  - replace (S k * m)%nat with (length r0 + k * m)%nat by lia.
    rewrite drop_app_add. by apply IH.
Qed.

Lemma rows_of_concat {A : Type} (m : nat) (rows : list (list A)) :
  Forall (fun r => length r = m) rows ->
  map (fun k => chunk (Z.of_nat m) k (concat rows)) (seq 0 (length rows)) = rows.
Proof.
  intros Hrows. apply list_eq. intros k. rewrite list_lookup_fmap.
  destruct (rows !! k) as [r|] eqn:Hk.
  - rewrite lookup_seq_lt by by apply lookup_lt_Some in Hk.
    cbn. f_equal. by apply chunk_concat.
  - apply lookup_ge_None in Hk. by rewrite lookup_seq_ge.
Qed.

Lemma items_elements_length {A : Type} (items : list (ndarray A)) (ds : list nat) :
  forallb (fun it => has_shape it ds) items = true ->
  Forall (fun r => length r = foldr Nat.mul 1%nat ds) (map elements items).
Proof.
  intros Hall. apply Forall_fmap, Forall_forall. intros it Hin.
  apply elements_length. rewrite forallb_forall in Hall. apply Hall.
  by apply list_elem_of_In.
Qed.

Lemma forward_rows {A : Type} (items : list (ndarray A)) (ds : list nat) :
  items <> [] ->
  forallb (fun it => has_shape it ds) items = true ->
  Flatten.forward (Dim items) = Ok (matrix (map elements items)).
Proof.
  intros Hne Hall. pose proof (items_elements_length _ _ Hall) as Hrows.
  set (m := foldr Nat.mul 1%nat ds) in *.
  assert (Hn : 0 < Py.len items) by (unfold Py.len; destruct items; [done|cbn; lia]).
  assert (Hnumel : Py.len (elements (Dim items)) = Py.len items * Z.of_nat m).
  { unfold Py.len. cbn [elements]. clear Hall Hne Hn.
    induction items as [|it items IH]; [done|].
    apply Forall_cons in Hrows as [Hit Hrest]. cbn.
    rewrite length_app, Hit, Nat2Z.inj_add, (IH Hrest). lia. }
  unfold Flatten.forward, Flatten.size0, Flatten.view_rows. cbn [rbind].
  destruct (Z.eqb_spec (Py.len items) 0); [lia|].
  rewrite Hnumel, (Z.mul_comm (Py.len items)), Z.mod_mul, Z.div_mul by lia.
  cbn [Z.eqb].
  do 2 f_equal. cbn [elements]. unfold Py.len. rewrite Nat2Z.id.
  rewrite <- (length_map elements items). by apply rows_of_concat.
Qed.

Lemma elements_row {A : Type} (r : list A) : elements (Dim (map Item r)) = r.
Proof. cbn. induction r as [|a r IH]; [done|]. cbn. by rewrite IH. Qed.


Lemma row_shape {A : Type} (r : list A) :
  has_shape (Dim (map Item r)) [length r] = true.
Proof.
  cbn. rewrite length_map, Nat.eqb_refl. cbn.
  induction r as [|a r IH]; [done|]. by cbn.
Qed.


Lemma shape_inv {A : Type} (t : ndarray A) (n : nat) (ds : list nat) :
  has_shape t (n :: ds) = true ->
  exists items, t = Dim items /\ length items = n /\
                forallb (fun it => has_shape it ds) items = true.
Proof.
  destruct t as [a|items]; cbn; [done|]. intros Hshape.
  apply andb_true_iff in Hshape as [Hlen Hall]. apply Nat.eqb_eq in Hlen.
  by exists items.
Qed.




(** X4. Flattening twice is flattening once: [Flatten] applied to its own
    output returns that output. *)
Theorem flatten_idempotent {A : Type} (input_ out : ndarray A) (dims : list nat) :
  has_shape input_ dims = true ->
  Flatten.forward input_ = Ok out ->
  Flatten.forward out = Ok out.
Proof.
  intros Hshape Hout. destruct dims as [|[|n] ds].
  - by destruct input_.
  - destruct (shape_inv _ _ _ Hshape) as (items & -> & Hlen & _).
    by destruct items.
  - destruct (shape_inv _ _ _ Hshape) as (items & -> & Hlen & Hall).
    rewrite (forward_rows items ds) in Hout by (by destruct items).
    injection Hout as <-. unfold matrix.
    pose proof (items_elements_length _ _ Hall) as Hrows.
    rewrite (forward_rows _ [foldr Nat.mul 1%nat ds]).
    + unfold matrix. do 3 f_equal. rewrite map_map.
      rewrite <- (map_id (map elements items)) at 2.
      apply map_ext. intros r. apply elements_row.
    + destruct items; [done|]. done.
    + apply forallb_forall. intros t Hin. apply in_map_iff in Hin as (r & <- & Hr).
      rewrite Forall_forall in Hrows. rewrite <- (Hrows r); [apply row_shape|].
      by apply list_elem_of_In.
Qed.

(** ** batch_data, further *)

Lemma slice_length {A : Type} (l : list A) (i j : Z) :
  0 <= i <= j ->
  Py.len (Py.slice l i j) = Z.min j (Py.len l) - Z.min i (Py.len l).
Proof.
  intros Hij. unfold Py.slice, Py.clamp.
  destruct (Z.ltb_spec i 0); [lia|]. destruct (Z.ltb_spec j 0); [lia|].
  unfold Py.len. rewrite length_take, length_drop. lia.
Qed.


Lemma chunk_app_l {A : Type} (b : Z) (k : nat) (l1 l2 : list A) :
  0 < b -> (Z.of_nat k + 1) * b <= Py.len l1 ->
  chunk b k (l1 ++ l2) = chunk b k l1.
Proof.
  intros Hb Hk. unfold chunk, Py.len in *.
  rewrite drop_app_le by nia. rewrite take_app_le; [done|].
  rewrite length_drop. nia.
Qed.

Lemma chunk_app_r {A : Type} (b : Z) (m k : nat) (l1 l2 : list A) :
  0 < b -> Py.len l1 = Z.of_nat m * b ->
  chunk b (m + k) (l1 ++ l2) = chunk b k l2.
Proof.
  intros Hb Hl1. unfold chunk, Py.len in *. f_equal.
  replace ((m + k) * Z.to_nat b)%nat with (length l1 + k * Z.to_nat b)%nat by nia.
  apply drop_app_add.
Qed.

Lemma seq_from (m n : nat) : seq (0 + m) n = map (Nat.add m) (seq 0 n).
Proof.
  replace (0 + m)%nat with (m + 0)%nat by lia. symmetry. apply (fmap_add_seq m 0 n).
Qed.

Section BatchingMore.

Variable Sample : Type.
Variable to_float32 : Sample -> Sample.
Variable cuda : bool.

Lemma batch_data_unfold (x_data : list Sample) (y0 y1 : list Z) (b : Z) :
  0 < b ->
  batch_data to_float32 cuda x_data (y0, y1) b
  = for_each
      (fun i =>
         let? y := Torch.tensor_rows Int64
                     [Py.slice y0 i (i + b); Py.slice y1 i (i + b)] in
         Ok (Batch (Torch.to (Tensor Float32 Cpu
                                (map to_float32 (Py.slice x_data i (i + b))))
                             (device cuda))
                   (Torch.to y (device cuda))))
      (map (fun k : nat => Z.of_nat k * b) (seq 0 (Z.to_nat (Py.len x_data / b)))).
Proof.
  intros Hb. unfold batch_data.
  rewrite int_div_pos by (unfold Py.len; lia). cbn [rbind].
  assert (0 <= Py.len x_data / b) by (apply Z.div_pos; unfold Py.len; lia).
  by rewrite range_multiple by lia.
Qed.

(** X5. [batch_data] never compares the label arrays with the samples: for
    a positive batch size and two label arrays of one length, whatever that
    length, it returns floor(N/b) batches of [b] samples each, and the
    label rows of the [k]-th batch hold the labels left at position [k*b],
    at most [b] of them and possibly none. *)
Theorem batch_data_labels_unchecked (x_data : list Sample) (y0 y1 : list Z) (b : Z) :
  0 < b -> length y0 = length y1 ->
  exists batches,
    batch_data to_float32 cuda x_data (y0, y1) b = Ok batches /\
    Py.len batches = Py.len x_data / b /\
    forall (k : nat) bt, batches !! k = Some bt ->
      Py.len (t_data (b_x bt)) = b /\
      Forall (fun r => Py.len r = Z.min b (Z.max 0 (Py.len y0 - Z.of_nat k * b)))
             (t_data (b_y bt)).
Proof.
  intros Hb Hy.
  assert (Hq : 0 <= Py.len x_data / b) by (apply Z.div_pos; unfold Py.len; lia).
  exists (map (sliced_batch to_float32 cuda x_data y0 y1 b) (seq 0 (Z.to_nat (Py.len x_data / b)))).
  split; [|split].
  - rewrite batch_data_unfold by done. apply for_each_map_ok. intros k _.
    unfold Torch.tensor_rows, Torch.rectangular. cbn [forallb].
    assert (Hlen : length (Py.slice y1 (Z.of_nat k * b) (Z.of_nat k * b + b))
                   = length (Py.slice y0 (Z.of_nat k * b) (Z.of_nat k * b + b))).
    { apply Nat2Z.inj. fold (Py.len (Py.slice y1 (Z.of_nat k * b) (Z.of_nat k * b + b))).
      fold (Py.len (Py.slice y0 (Z.of_nat k * b) (Z.of_nat k * b + b))).
      rewrite !slice_length by nia. unfold Py.len. lia. }
    by rewrite Hlen, Nat.eqb_refl.
  - unfold Py.len at 1. rewrite length_map, length_seq. lia.
  - intros k bt Hk. rewrite list_lookup_fmap in Hk.
    destruct (seq _ _ !! k) as [k'|] eqn:Hs; [|done].
    apply lookup_seq in Hs as [-> Hlt]. injection Hk as <-.
    unfold sliced_batch. cbn [b_x b_y t_data Nat.add].
    assert ((Z.of_nat k + 1) * b <= Py.len x_data)
      by (apply full_chunks_fit; unfold Py.len in *; lia).
    split.
    + unfold Py.len at 1. rewrite length_map.
      fold (Py.len (Py.slice x_data (Z.of_nat k * b) (Z.of_nat k * b + b))).
      rewrite slice_length by nia. lia.
    + repeat constructor; rewrite slice_length by nia; unfold Py.len; lia.
Qed.


(** X7. Batching distributes over appending data sets when the first one
    fills whole batches: the batches of the appended arrays are the
    batches of the first followed by the batches of the second. *)
Theorem batch_data_app (x1 x2 : list Sample) (y0a y1a y0b y1b : list Z) (b : Z)
    (m : nat) :
  0 < b -> Py.len x1 = Z.of_nat m * b ->
  length y0a = length x1 -> length y1a = length x1 ->
  length y0b = length x2 -> length y1b = length x2 ->
  exists bs1 bs2,
    batch_data to_float32 cuda x1 (y0a, y1a) b = Ok bs1 /\
    batch_data to_float32 cuda x2 (y0b, y1b) b = Ok bs2 /\
    batch_data to_float32 cuda (x1 ++ x2) (y0a ++ y0b, y1a ++ y1b) b
    = Ok (bs1 ++ bs2).
Proof.
  intros Hb Hm H0a H1a H0b H1b.
  eexists _, _. split; [by apply batch_data_positive|].
  split; [by apply batch_data_positive|].
  rewrite batch_data_positive by (done || rewrite !length_app; lia).
  f_equal. unfold Py.len in *. rewrite length_app, Nat2Z.inj_add, Hm.
  rewrite Z.div_add_l, Z.div_mul by lia.
  assert (0 <= Z.of_nat (length x2) / b) by (apply Z.div_pos; lia).
  rewrite Z2Nat.inj_add, Nat2Z.id by lia.
  rewrite seq_app, map_app. f_equal.
  - apply map_ext_in. intros k Hk. apply in_seq in Hk. unfold nth_batch.
    rewrite !chunk_app_l by (unfold Py.len; nia). done.
  - rewrite (seq_from m), map_map.
    apply map_ext. intros k. unfold nth_batch.
    rewrite !chunk_app_r by (unfold Py.len; lia). done.
Qed.

(** X8. A batch size larger than the number of samples yields no batch at
    all and no error, whatever the label arrays are. *)
Theorem batch_data_oversize (x_data : list Sample) (y_data : list Z * list Z) (b : Z) :
  Py.len x_data < b ->
  batch_data to_float32 cuda x_data y_data b = Ok [].
Proof.
  intros Hb. assert (0 <= Py.len x_data) by (unfold Py.len; lia).
  unfold batch_data. rewrite int_div_pos by lia. cbn [rbind].
  rewrite Z.div_small by lia. cbn [Z.mul].
  unfold Py.range, Py.range_len. destruct (Z.eqb_spec b 0); [lia|].
  destruct (Z.ltb_spec 0 b); [|lia]. done.
Qed.

End BatchingMore.

(** ** compute_accuracy, further *)

Lemma count_true_le (l : list bool) : (Np.count_true l <= length l)%nat.
Proof.
  unfold Np.count_true. induction l as [|[] l IH]; cbn; lia.
Qed.

Lemma mean_bool_range (l : list bool) (q : Q) :
  Np.mean_bool l = Fin q -> (0 <= q <= 1)%Q.
Proof.
  unfold Np.mean_bool. pose proof (count_true_le l) as Hle.
  destruct l as [|e l]; [done|]. intros [= <-].
  set (c := Np.count_true (e :: l)) in *. cbn [length] in *.
  unfold Qle. cbn [Qnum Qden]. lia.
Qed.


Lemma zip_eqb_sym (a b : list Z) : zip_with Z.eqb a b = zip_with Z.eqb b a.
Proof.
  revert b. induction a as [|u a IH]; intros [|v b]; cbn; try done.
  by rewrite IH, Z.eqb_sym.
Qed.

Lemma np_equal_sym (a b : list Z) : Np.equal a b = Np.equal b a.
Proof.
  unfold Np.equal. rewrite (Nat.eqb_sym (length b) (length a)).
  destruct (Nat.eqb_spec (length a) (length b)) as [Hlen|Hlen].
  - by rewrite zip_eqb_sym.
  - destruct a as [|u [|u' a]], b as [|v [|v' b]]; cbn in *; try done.
    + f_equal. f_equal; [apply Z.eqb_sym|]. f_equal; [apply Z.eqb_sym|].
      apply map_ext. intros x. apply Z.eqb_sym.
    + f_equal. f_equal; [apply Z.eqb_sym|]. f_equal; [apply Z.eqb_sym|].
      apply map_ext. intros x. apply Z.eqb_sym.
Qed.


(** X9. Whenever [compute_accuracy] returns a number, the number lies
    between 0 and 1. *)
Theorem compute_accuracy_range (predictions gold : tensor (list Z)) (q : Q) :
  compute_accuracy predictions gold = Ok (Fin q) -> (0 <= q <= 1)%Q.
Proof.
  unfold compute_accuracy. destruct (Np.equal _ _) as [eqs|]; [|done].
  cbn. intros [= Hq]. by apply (mean_bool_range eqs).
Qed.

(** X10. [compute_accuracy] does not distinguish predictions from gold
    labels: swapping its arguments gives the same result, error or not. *)
Theorem compute_accuracy_sym (predictions gold : tensor (list Z)) :
  compute_accuracy predictions gold = compute_accuracy gold predictions.
Proof. unfold compute_accuracy, tensor2array. by rewrite np_equal_sym. Qed.

Lemma np_equal_raises (a b : list Z) :
  (exists e, Np.equal a b = Err e)
  <-> length a <> length b /\ length a <> 1%nat /\ length b <> 1%nat.
Proof.
  unfold Np.equal. destruct (Nat.eqb_spec (length a) (length b)) as [Hlen|Hlen].
  - split; [intros [e He]; discriminate | intros [H _]; contradiction].
  - destruct a as [|u [|u' a]], b as [|v [|v' b]]; cbn in Hlen |- *;
      try contradiction;
      (split; [intros [e He]; try discriminate; repeat split; lia
              | intros (_ & H1 & H2); try lia; eauto]).
Qed.

Lemma np_equal_error (a b : list Z) (e : exn) :
  Np.equal a b = Err e -> e = ValueError.
Proof.
  unfold Np.equal. destruct (Nat.eqb (length a) (length b)); [discriminate|].
  destruct a as [|u [|u' a]], b as [|v [|v' b]]; intros H; try discriminate;
    by injection H as <-.
Qed.

Lemma np_equal_broadcast (a : list Z) (v : Z) :
  length a <> 1%nat -> Np.equal a [v] = Ok (map (fun u => u =? v) a).
Proof.
  intros Ha. unfold Np.equal.
  destruct (Nat.eqb_spec (length a) (length [v])) as [Hlen|Hlen]; [done|].
  by destruct a as [|u [|u' a]].
Qed.

(** X11. [compute_accuracy] raises exactly when the two vectors differ in
    length and neither has exactly one element, and the error is then a
    ValueError; a one-element vector is compared with every element of the
    other. *)
Theorem compute_accuracy_shapes (predictions gold : tensor (list Z)) :
  ((exists e, compute_accuracy predictions gold = Err e)
   <-> length (t_data predictions) <> length (t_data gold) /\
       length (t_data predictions) <> 1%nat /\
       length (t_data gold) <> 1%nat) /\
  (forall e, compute_accuracy predictions gold = Err e -> e = ValueError) /\
  (forall v, t_data gold = [v] -> length (t_data predictions) <> 1%nat ->
     compute_accuracy predictions gold
     = Ok (Np.mean_bool (map (fun u => u =? v) (t_data predictions)))).
Proof.
  unfold compute_accuracy, tensor2array. split; [|split].
  - rewrite <- np_equal_raises.
    destruct (Np.equal _ _) as [eqs|e]; cbn; split; intros [e' He']; eauto; done.
  - intros e. destruct (Np.equal _ _) as [eqs|e'] eqn:Heq; cbn; [done|].
    intros [= <-]. by apply np_equal_error in Heq.
  - intros v -> Hp. by rewrite np_equal_broadcast.
Qed.

(** ** run_epoch and train_model, further *)

Lemma for_loop_app {A S : Type} (body : S -> A -> M S) (l1 l2 : list A) (s : S)
    (w : world) :
  for_loop body (l1 ++ l2) s w
  = match for_loop body l1 s w with
    | Ok (s1, w1) => for_loop body l2 s1 w1
    | Err e => Err e
    end.
Proof.
  revert s w. induction l1 as [|a l1 IH]; intros s w; [done|].
  cbn. unfold bind. destruct (body s a w) as [[s1 w1]|e]; [apply IH|done].
Qed.

Lemma stepped_params_grad (optimizer : sgd) (j : scalar) (w : world) (i : nat)
    (p' : param) :
  stepped_params optimizer j w !! i = Some p' ->
  p_grad p' = Some (default 0%Q (s_grad j !! i)).
Proof.
  unfold stepped_params. rewrite !list_lookup_imap, list_lookup_fmap.
  destruct (params (w_model w) !! i) as [p|]; [|done]. cbn. by intros [= <-].
Qed.

Section TrainingMore.

Variable Sample Logits : Type.
Variable argmax : Logits -> tensor (list Z).
Variable cross_entropy : Logits -> tensor (list Z) -> result scalar.
Variable forward :
  model_state -> tensor (list Sample) -> result (Logits * Logits * model_state).

(** X12. A fault in one batch aborts the epoch: when the forward pass
    raises on a batch, after the batches before it went through,
    [run_epoch] raises the same error; the batches after it are not
    looked at and no metrics are returned. *)
Theorem run_epoch_aborts (optimizer : sgd) (pre post : list (batch Sample))
    (b : batch Sample) (w w1 : world)
    (res : (npfloat * npfloat) * (npfloat * npfloat)) (e : exn) :
  run_epoch argmax cross_entropy forward pre optimizer w = Ok (res, w1) ->
  forward (w_model w1) (b_x b) = Err e ->
  run_epoch argmax cross_entropy forward (pre ++ b :: post) optimizer w = Err e.
Proof.
  intros Hpre Hfail.
  apply run_epoch_inv in Hpre as (t & Hloop & _).
  unfold run_epoch, bind at 1, get_model. unfold bind at 1.
  rewrite for_loop_app, Hloop. cbn [for_loop]. unfold bind at 1.
  unfold run_batch, bind at 1, call_model. by rewrite Hfail.
Qed.

(** X13. Gradients do not accumulate from batch to batch: after a
    TRAIN-mode epoch every parameter carries the gradient of the joint
    objective of the last batch alone. *)
Theorem run_epoch_last_gradient (optimizer : sgd) (pre : list (batch Sample))
    (b : batch Sample) (w w' : world)
    (res : (npfloat * npfloat) * (npfloat * npfloat)) :
  training (w_model w) = true ->
  run_epoch argmax cross_entropy forward (pre ++ [b]) optimizer w = Ok (res, w') ->
  exists r st st',
    observed argmax cross_entropy forward st b r st' /\
    forall i p', params (w_model w') !! i = Some p' ->
                 p_grad p' = Some (joint_grad r i).
Proof.
  intros Hmode Hrun.
  apply run_epoch_inv in Hrun as (t & Hloop & _).
  rewrite Hmode, for_loop_app in Hloop.
  destruct (for_loop _ pre _ _) as [[t1 w1]|]; [|done].
  cbn [for_loop] in Hloop. unfold bind, ret in Hloop.
  destruct (run_batch _ _ _ _ _ _ _ _) as [[t2 w2]|] eqn:Hb; [|done].
  injection Hloop as -> ->.
  apply run_batch_inv in Hb as (r & st & Hobs & _ & Hup).
  destruct (train_update_ok optimizer (joint (o_loss1 r) (o_loss2 r))
              (with_model w1 st)) as (os & Hok).
  rewrite Hok in Hup. injection Hup as <-.
  exists r, (w_model w1), st. split; [done|].
  intros i p' Hp'. cbn in Hp'. by apply stepped_params_grad in Hp'.
Qed.







Lemma epoch_loop_mode (optimizer : sgd) (flag : bool) (data : list (batch Sample))
    (t t' : tallies) (w w' : world) :
  keeps_mode forward ->
  for_loop (run_batch argmax cross_entropy forward optimizer flag) data t w
    = Ok (t', w') ->
  training (w_model w') = training (w_model w).
Proof.
  intros Hkeep. revert t w. induction data as [|b data IH]; intros t w Hrun;
    cbn in Hrun.
  - unfold ret in Hrun. by injection Hrun as _ <-.
  - unfold bind in Hrun.
    destruct (run_batch _ _ _ _ _ _ _ _) as [[t1 w1]|] eqn:Hb; [|done].
    rewrite (IH _ _ Hrun).
    apply run_batch_inv in Hb as (r & st & Hobs & _ & Hw1).
    destruct Hobs as (out1 & out2 & y0 & y1 & Hf & _). apply Hkeep in Hf.
    destruct flag.
    + destruct (train_update_ok optimizer (joint (o_loss1 r) (o_loss2 r))
                  (with_model w st)) as (os & Hok).
      rewrite Hok in Hw1. by injection Hw1 as <-.
    + by subst w1.
Qed.

Lemma count_steps_app (l1 l2 : list event) :
  count_steps (l1 ++ l2) = (count_steps l1 + count_steps l2)%nat.
Proof. unfold count_steps. by rewrite List.filter_app, length_app. Qed.

Lemma count_steps_updates (rs : list observation) :
  count_steps (concat (map update_events rs)) = length rs.
Proof.
  induction rs as [|r rs IH]; [done|].
  cbn [map concat]. by rewrite count_steps_app, IH.
Qed.

Lemma run_epoch_steps (optimizer : sgd) (data : list (batch Sample))
    (w w' : world) (res : (npfloat * npfloat) * (npfloat * npfloat)) :
  run_epoch argmax cross_entropy forward data optimizer w = Ok (res, w') ->
  exists evs,
    w_log w' = w_log w ++ evs /\
    count_steps evs = if training (w_model w) then length data else 0%nat.
Proof.
  intros Hrun. apply run_epoch_inv in Hrun as (t & Hloop & _).
  apply epoch_loop_inv in Hloop as (rs & Hall & _ & Hlog & _).
  destruct (training (w_model w)); cbv beta iota in Hlog;
    eexists; (split; [exact Hlog|]); [|done].
  rewrite count_steps_updates. symmetry. by apply Forall2_length in Hall.
Qed.

Lemma train_epoch_split (train_data dev_data : list (batch Sample))
    (optimizer : sgd) (epoch : Z) (w w' : world) (u : unit) :
  train_epoch argmax cross_entropy forward train_data dev_data optimizer tt epoch w
    = Ok (u, w') ->
  exists loss acc w1 v_loss v_acc w2,
    run_epoch argmax cross_entropy forward train_data optimizer (train_start epoch w)
      = Ok ((loss, acc), w1) /\
    run_epoch argmax cross_entropy forward dev_data optimizer
      (dev_start (TrainMetrics (fst loss) (fst acc) (snd loss) (snd acc)) w1)
      = Ok ((v_loss, v_acc), w2) /\
    w' = World (w_model w2) (w_opt w2)
               ((w_log w2
                 ++ [EvPrint (DevMetrics (fst v_loss) (fst v_acc)
                                         (snd v_loss) (snd v_acc))])
                ++ [EvSave checkpoint_path (snapshot (w_model w2))])
               (<[checkpoint_path := snapshot (w_model w2)]> (w_fs w2)).
Proof.
  unfold train_epoch, bind at 1, emit at 1. intros Hrun.
  unfold bind at 1, set_mode at 1, bind at 1, get_model, put_model in Hrun.
  unfold bind at 1 in Hrun. cbn [w_model w_opt w_log w_fs] in Hrun.
  fold (train_start epoch w) in Hrun.
  destruct (run_epoch _ _ _ train_data _ _) as [[[loss acc] w1]|] eqn:Htrain; [|done].
  unfold bind at 1, emit at 1 in Hrun.
  unfold bind at 1, set_mode at 1, bind at 1, get_model, put_model in Hrun.
  unfold bind at 1 in Hrun. cbn [w_model w_opt w_log w_fs] in Hrun.
  fold (dev_start (TrainMetrics (fst loss) (fst acc) (snd loss) (snd acc)) w1) in Hrun.
  destruct (run_epoch _ _ _ dev_data _ _) as [[[v_loss v_acc] w2]|] eqn:Hdev; [|done].
  unfold bind at 1, emit at 1, save in Hrun. cbn [w_model w_opt w_log w_fs] in Hrun.
  injection Hrun as _ <-. by exists loss, acc, w1, v_loss, v_acc, w2.
Qed.

Lemma train_epoch_steps (train_data dev_data : list (batch Sample))
    (optimizer : sgd) (epoch : Z) (w w' : world) (u : unit) :
  train_epoch argmax cross_entropy forward train_data dev_data optimizer tt epoch w
    = Ok (u, w') ->
  exists evs,
    w_log w' = w_log w ++ evs /\ count_steps evs = length train_data.
Proof.
  intros Hrun.
  apply train_epoch_split in Hrun
    as (loss & acc & w1 & v_loss & v_acc & w2 & Htrain & Hdev & ->).
  apply run_epoch_steps in Htrain as (e1 & Hl1 & Hc1).
  apply run_epoch_steps in Hdev as (e2 & Hl2 & Hc2).
  cbn in Hl1, Hc1, Hl2, Hc2 |- *.
  eexists. split.
  - rewrite Hl2, Hl1, <- !app_assoc. reflexivity.
  - rewrite !count_steps_app, Hc1, Hc2. cbn. lia.
Qed.

Lemma epochs_loop_steps (train_data dev_data : list (batch Sample))
    (optimizer : sgd) (epochs : list Z) (w w' : world) (u : unit) :
  for_loop (train_epoch argmax cross_entropy forward train_data dev_data optimizer)
           epochs tt w = Ok (u, w') ->
  exists evs,
    w_log w' = w_log w ++ evs /\
    count_steps evs = (length epochs * length train_data)%nat.
Proof.
  revert w. induction epochs as [|k epochs IH]; intros w Hrun; cbn in Hrun.
  - unfold ret in Hrun. injection Hrun as _ <-. exists []. by rewrite app_nil_r.
  - unfold bind in Hrun.
    destruct (train_epoch _ _ _ _ _ _ _ _ _) as [[[] w1]|] eqn:Hfirst; [|done].
    apply train_epoch_steps in Hfirst as (e1 & Hl1 & Hc1).
    apply IH in Hrun as (rest & Hl & Hc).
    exists (e1 ++ rest). split; [by rewrite Hl, Hl1, app_assoc|].
    rewrite count_steps_app, Hc1, Hc. cbn. lia.
Qed.

Lemma make_inv (lr momentum : Q) (nesterov : bool) (w w0 : world) (optimizer : sgd) :
  Optim.make lr momentum nesterov w = Ok (optimizer, w0) ->
  optimizer = SGD lr momentum nesterov /\
  w0 = World (w_model w) ∅ (w_log w) (w_fs w).
Proof.
  unfold Optim.make. destruct (params _); [done|].
  destruct (_ && _); [|done]. by intros [= <- <-].
Qed.

(** X15. The optimizer steps once per training batch and epoch and never
    on validation data: a run of [train_model] over [n] epochs calls
    [optimizer.step()] exactly [n] times the number of training batches,
    whatever the validation split holds. *)
Theorem train_model_step_count (train_data dev_data : list (batch Sample))
    (lr momentum : Q) (nesterov : bool) (n_epochs : Z) (w w' : world) (u : unit) :
  train_model argmax cross_entropy forward train_data dev_data
              lr momentum nesterov n_epochs w = Ok (u, w') ->
  exists evs,
    w_log w' = w_log w ++ evs /\
    Z.of_nat (count_steps evs) = Z.max 0 n_epochs * Py.len train_data.
Proof.
  unfold train_model, bind at 1. intros Hrun.
  destruct (Optim.make _ _ _ w) as [[optimizer w0]|] eqn:Hmake; [|done].
  apply make_inv in Hmake as [_ ->].
  rewrite range_unit in Hrun. unfold bind at 1, lift in Hrun.
  apply epochs_loop_steps in Hrun as (evs & Hl & Hc).
  exists evs. split; [done|].
  rewrite Hc, length_map, length_seq. unfold Py.len. lia.
Qed.

(** X16. With an epoch count that is not positive [train_model] builds the
    optimizer and does nothing else: nothing is printed, nothing is saved,
    and the model is left as it was, mode flag included. *)
Theorem train_model_no_epoch (train_data dev_data : list (batch Sample))
    (lr momentum : Q) (nesterov : bool) (n_epochs : Z) (w w' : world) (u : unit) :
  n_epochs <= 0 ->
  train_model argmax cross_entropy forward train_data dev_data
              lr momentum nesterov n_epochs w = Ok (u, w') ->
  w_model w' = w_model w /\ w_log w' = w_log w /\ w_fs w' = w_fs w.
Proof.
  intros Hn. unfold train_model, bind at 1. intros Hrun.
  destruct (Optim.make _ _ _ w) as [[optimizer w0]|] eqn:Hmake; [|done].
  apply make_inv in Hmake as [_ ->].
  rewrite range_unit in Hrun. unfold bind at 1, lift in Hrun.
  replace (Z.to_nat n_epochs) with 0%nat in Hrun by lia.
  cbn in Hrun. unfold ret in Hrun. by injection Hrun as _ <-.
Qed.

Lemma run_epoch_mode (optimizer : sgd) (data : list (batch Sample))
    (w w' : world) (res : (npfloat * npfloat) * (npfloat * npfloat)) :
  keeps_mode forward ->
  run_epoch argmax cross_entropy forward data optimizer w = Ok (res, w') ->
  training (w_model w') = training (w_model w).
Proof.
  intros Hkeep Hrun. apply run_epoch_inv in Hrun as (t & Hloop & _).
  by apply epoch_loop_mode in Hloop.
Qed.

Lemma epochs_loop_eval (train_data dev_data : list (batch Sample))
    (optimizer : sgd) (epochs : list Z) (w w' : world) (u : unit) :
  keeps_mode forward -> epochs <> [] ->
  for_loop (train_epoch argmax cross_entropy forward train_data dev_data optimizer)
           epochs tt w = Ok (u, w') ->
  training (w_model w') = false.
Proof.
  intros Hkeep. revert w. induction epochs as [|k epochs IH]; intros w Hne Hrun;
    [done|]. cbn in Hrun. unfold bind in Hrun.
  destruct (train_epoch _ _ _ _ _ _ _ _ _) as [[[] w1]|] eqn:Hfirst; [|done].
  destruct epochs as [|k' epochs].
  - cbn in Hrun. unfold ret in Hrun. injection Hrun as _ <-.
    apply train_epoch_split in Hfirst
      as (loss & acc & w1' & v_loss & v_acc & w2 & _ & Hdev & ->).
    by apply run_epoch_mode in Hdev.
  - by apply IH in Hrun.
Qed.

(** X17. After at least one epoch the model is left in EVAL mode, and that
    is the mode the checkpoint stores with the final parameter values
    (for a forward pass that does not switch the mode itself). *)
Theorem train_model_ends_in_eval (train_data dev_data : list (batch Sample))
    (lr momentum : Q) (nesterov : bool) (n_epochs : Z) (w w' : world) (u : unit) :
  keeps_mode forward -> 0 < n_epochs ->
  train_model argmax cross_entropy forward train_data dev_data
              lr momentum nesterov n_epochs w = Ok (u, w') ->
  training (w_model w') = false /\
  w_fs w' !! checkpoint_path
  = Some (Checkpoint (map p_data (params (w_model w'))) false).
Proof.
  intros Hkeep Hn. unfold train_model, bind at 1. intros Hrun.
  destruct (Optim.make _ _ _ w) as [[optimizer w0]|] eqn:Hmake; [|done].
  rewrite range_unit in Hrun. unfold bind at 1, lift in Hrun.
  assert (Hmode : training (w_model w') = false).
  { apply epochs_loop_eval in Hrun; [done..|].
    destruct (Z.to_nat n_epochs) eqn:E; [lia|done]. }
  split; [done|].
  apply epochs_loop_inv in Hrun as (evs & _ & _ & _ & _ & Hmore).
  destruct Hmore as [_ Hfs]; [lia|].
  rewrite Hfs, lookup_insert_eq. unfold snapshot. by rewrite Hmode.
Qed.

Lemma observed_functional (m : model_state) (b : batch Sample)
    (r r' : observation) (st st' : model_state) :
  observed argmax cross_entropy forward m b r st ->
  observed argmax cross_entropy forward m b r' st' ->
  r = r' /\ st = st'.
Proof.
  intros (o1 & o2 & y0 & y1 & Hf & Hy0 & Hy1 & Ha1 & Ha2 & Hl1 & Hl2)
         (o1' & o2' & y0' & y1' & Hf' & Hy0' & Hy1' & Ha1' & Ha2' & Hl1' & Hl2').
  rewrite Hf in Hf'. injection Hf' as <- <- <-.
  rewrite Hy0 in Hy0'. injection Hy0' as <-.
  rewrite Hy1 in Hy1'. injection Hy1' as <-.
  rewrite Ha1 in Ha1'. rewrite Ha2 in Ha2'. rewrite Hl1 in Hl1'. rewrite Hl2 in Hl2'.
  injection Ha1' as Ha1'. injection Ha2' as Ha2'.
  injection Hl1' as Hl1'. injection Hl2' as Hl2'.
  split; [|done]. destruct r, r'. cbn in *. congruence.
Qed.

Lemma train_update_same (optimizer : sgd) (j : scalar) (w1 w2 w1' w2' : world) :
  same_state w1 w2 ->
  train_update optimizer j w1 = Ok (tt, w1') ->
  train_update optimizer j w2 = Ok (tt, w2') ->
  same_state w1' w2'.
Proof.
  intros (Hm & Ho & Hf).
  unfold train_update, bind, Optim.zero_grad, Optim.backward, Optim.step,
    bind, get_model, put_model, emit. cbn.
  intros [= <-] [= <-]. unfold same_state. cbn. by rewrite Hm, Ho, Hf.
Qed.

Lemma run_batch_same (optimizer : sgd) (flag : bool) (t t1 t2 : tallies)
    (b : batch Sample) (w1 w2 w1' w2' : world) :
  same_state w1 w2 ->
  run_batch argmax cross_entropy forward optimizer flag t b w1 = Ok (t1, w1') ->
  run_batch argmax cross_entropy forward optimizer flag t b w2 = Ok (t2, w2') ->
  t1 = t2 /\ same_state w1' w2'.
Proof.
  intros Hsame Hrun1 Hrun2.
  apply run_batch_inv in Hrun1 as (r1 & st1 & Hobs1 & -> & Hw1).
  apply run_batch_inv in Hrun2 as (r2 & st2 & Hobs2 & -> & Hw2).
  destruct Hsame as (Hm & Ho & Hf). rewrite Hm in Hobs1.
  destruct (observed_functional _ _ _ _ _ _ Hobs1 Hobs2) as [<- <-].
  split; [done|].
  assert (Hstart : same_state (with_model w1 st1) (with_model w2 st1))
    by (by unfold same_state, with_model).
  destruct flag.
  - by apply (train_update_same _ _ _ _ _ _ Hstart Hw1 Hw2).
  - by subst w1' w2'.
Qed.

Lemma epoch_loop_same (optimizer : sgd) (flag : bool) (data : list (batch Sample))
    (t t1 t2 : tallies) (w1 w2 w1' w2' : world) :
  same_state w1 w2 ->
  for_loop (run_batch argmax cross_entropy forward optimizer flag) data t w1
    = Ok (t1, w1') ->
  for_loop (run_batch argmax cross_entropy forward optimizer flag) data t w2
    = Ok (t2, w2') ->
  t1 = t2 /\ same_state w1' w2'.
Proof.
  revert t w1 w2. induction data as [|b data IH]; intros t w1 w2 Hsame Hrun1 Hrun2;
    cbn in Hrun1, Hrun2.
  - unfold ret in *. injection Hrun1 as <- <-. by injection Hrun2 as <- <-.
  - unfold bind in *.
    destruct (run_batch _ _ _ _ _ _ _ w1) as [[ta wa]|] eqn:Ha; [|done].
    destruct (run_batch _ _ _ _ _ _ _ w2) as [[tb wb]|] eqn:Hb; [|done].
    destruct (run_batch_same _ _ _ _ _ _ _ _ _ _ Hsame Ha Hb) as [<- Hnext].
    by apply (IH _ _ _ Hnext Hrun1 Hrun2).
Qed.

Lemma run_epoch_same (optimizer : sgd) (data : list (batch Sample))
    (w1 w2 w1' w2' : world) (res1 res2 : (npfloat * npfloat) * (npfloat * npfloat)) :
  same_state w1 w2 ->
  run_epoch argmax cross_entropy forward data optimizer w1 = Ok (res1, w1') ->
  run_epoch argmax cross_entropy forward data optimizer w2 = Ok (res2, w2') ->
  res1 = res2 /\ same_state w1' w2'.
Proof.
  intros Hsame Hrun1 Hrun2.
  apply run_epoch_inv in Hrun1 as (t1 & Hloop1 & ->).
  apply run_epoch_inv in Hrun2 as (t2 & Hloop2 & ->).
  pose proof Hsame as (Hm & _). rewrite Hm in Hloop1.
  by destruct (epoch_loop_same _ _ _ _ _ _ _ _ _ _ Hsame Hloop1 Hloop2) as [<- ?].
Qed.

Lemma run_epoch_eval_same (optimizer : sgd) (data : list (batch Sample))
    (w w' : world) (res : (npfloat * npfloat) * (npfloat * npfloat)) :
  keeps_state forward -> training (w_model w) = false ->
  run_epoch argmax cross_entropy forward data optimizer w = Ok (res, w') ->
  same_state w' w.
Proof.
  intros Hkeep Hmode Hrun.
  assert (Hkm : keeps_mode forward).
  { intros st x outs st' Hf. by rewrite (Hkeep _ _ _ _ Hf). }
  assert (Hkp : keeps_params forward).
  { intros st x outs st' Hf. by rewrite (Hkeep _ _ _ _ Hf). }
  pose proof (run_epoch_mode _ _ _ _ _ Hkm Hrun) as Htr.
  apply run_epoch_inv in Hrun as (t & Hloop & _). rewrite Hmode in Hloop.
  apply epoch_loop_inv in Hloop as (rs & _ & _ & _ & Hfs & Hopt & Hpar).
  unfold same_state. rewrite Hfs, Hopt by done. split; [|done].
  specialize (Hpar eq_refl Hkp). destruct (w_model w'), (w_model w). cbn in *.
  congruence.
Qed.

Lemma train_epoch_same (train_data dev1 dev2 : list (batch Sample))
    (optimizer : sgd) (epoch : Z) (w1 w2 w1' w2' : world) (u1 u2 : unit) :
  keeps_state forward -> same_state w1 w2 ->
  train_epoch argmax cross_entropy forward train_data dev1 optimizer tt epoch w1
    = Ok (u1, w1') ->
  train_epoch argmax cross_entropy forward train_data dev2 optimizer tt epoch w2
    = Ok (u2, w2') ->
  same_state w1' w2'.
Proof.
  intros Hkeep (Hm & Ho & Hf) Hrun1 Hrun2.
  apply train_epoch_split in Hrun1
    as (loss1 & acc1 & wa1 & vl1 & va1 & wb1 & Htrain1 & Hdev1 & ->).
  apply train_epoch_split in Hrun2
    as (loss2 & acc2 & wa2 & vl2 & va2 & wb2 & Htrain2 & Hdev2 & ->).
  assert (Hstart : same_state (train_start epoch w1) (train_start epoch w2))
    by (unfold same_state, train_start; cbn; by rewrite Hm, Ho, Hf).
  destruct (run_epoch_same _ _ _ _ _ _ _ _ Hstart Htrain1 Htrain2)
    as [_ (Hma & Hoa & Hfa)].
  apply run_epoch_eval_same in Hdev1 as (Hmb1 & Hob1 & Hfb1); [|done..].
  apply run_epoch_eval_same in Hdev2 as (Hmb2 & Hob2 & Hfb2); [|done..].
  cbn in Hmb1, Hob1, Hfb1, Hmb2, Hob2, Hfb2.
  unfold same_state. cbn.
  rewrite Hmb1, Hmb2, Hob1, Hob2, Hfb1, Hfb2, Hma, Hoa, Hfa. done.
Qed.

Lemma epochs_loop_same (train_data dev1 dev2 : list (batch Sample))
    (optimizer : sgd) (epochs : list Z) (w1 w2 w1' w2' : world) (u1 u2 : unit) :
  keeps_state forward -> same_state w1 w2 ->
  for_loop (train_epoch argmax cross_entropy forward train_data dev1 optimizer)
           epochs tt w1 = Ok (u1, w1') ->
  for_loop (train_epoch argmax cross_entropy forward train_data dev2 optimizer)
           epochs tt w2 = Ok (u2, w2') ->
  same_state w1' w2'.
Proof.
  intros Hkeep. revert w1 w2.
  induction epochs as [|k epochs IH]; intros w1 w2 Hsame Hrun1 Hrun2;
    cbn in Hrun1, Hrun2.
  - unfold ret in *. injection Hrun1 as _ <-. by injection Hrun2 as _ <-.
  - unfold bind in *.
    destruct (train_epoch _ _ _ _ dev1 _ _ _ _) as [[[] wa]|] eqn:Ha; [|done].
    destruct (train_epoch _ _ _ _ dev2 _ _ _ _) as [[[] wb]|] eqn:Hb; [|done].
    pose proof (train_epoch_same _ _ _ _ _ _ _ _ _ _ _ Hkeep Hsame Ha Hb) as Hnext.
    by apply (IH _ _ Hnext Hrun1 Hrun2).
Qed.

(** X18. Validation data never influences training: for a forward pass
    that leaves the model state alone, two completed runs of [train_model]
    that differ only in the validation split end with the same model
    parameters and mode, the same optimizer state and the same
    checkpoint. *)
Theorem train_model_ignores_dev_data (train_data dev1 dev2 : list (batch Sample))
    (lr momentum : Q) (nesterov : bool) (n_epochs : Z) (w w1 w2 : world)
    (u1 u2 : unit) :
  keeps_state forward ->
  train_model argmax cross_entropy forward train_data dev1
              lr momentum nesterov n_epochs w = Ok (u1, w1) ->
  train_model argmax cross_entropy forward train_data dev2
              lr momentum nesterov n_epochs w = Ok (u2, w2) ->
  w_model w1 = w_model w2 /\ w_opt w1 = w_opt w2 /\ w_fs w1 = w_fs w2.
Proof.
  intros Hkeep. unfold train_model, bind at 1. intros Hrun1.
  unfold bind at 1. intros Hrun2.
  destruct (Optim.make _ _ _ w) as [[optimizer w0]|] eqn:Hmake; [|done].
  rewrite range_unit in Hrun1, Hrun2.
  unfold bind at 1, lift in Hrun1. unfold bind at 1, lift in Hrun2.
  eapply epochs_loop_same; [done| |exact Hrun1|exact Hrun2]. done.
Qed.

End TrainingMore.

(** ** The further statements on concrete inputs *)

Lemma toy_forward_keeps_state : keeps_state Toy.forward.
Proof. intros st x outs st' H. unfold Toy.forward in H. by injection H as _ <-. Qed.

Lemma toy_forward_keeps_mode : keeps_mode Toy.forward.
Proof. intros st x outs st' H. unfold Toy.forward in H. by injection H as _ <-. Qed.





Lemma flatten_idempotent_witness :
  Flatten.forward (matrix [[1; 2; 3; 4]; [5; 6; 7; 8]])
  = Ok (matrix [[1; 2; 3; 4]; [5; 6; 7; 8]]).
Proof.
  apply (flatten_idempotent cube _ [2; 2; 2]%nat); reflexivity.
Defined.

Lemma batch_data_labels_unchecked_witness :
  exists batches,
    batch_data id false [1; 2; 3; 4; 5] ([0; 1; 0], [1; 0; 1]) 2 = Ok batches /\
    Py.len batches = 2.
Proof.
  destruct (batch_data_labels_unchecked Z id false [1; 2; 3; 4; 5]
              [0; 1; 0] [1; 0; 1] 2) as (batches & Hrun & Hlen & _);
    [lia | reflexivity |].
  exists batches. split; [exact Hrun | exact Hlen].
Defined.


Lemma batch_data_app_witness :
  exists bs1 bs2,
    batch_data id false [1; 2; 3; 4] ([0; 1; 0; 1], [1; 0; 1; 0]) 2 = Ok bs1 /\
    batch_data id false [5; 6; 7] ([0; 0; 0], [1; 1; 1]) 2 = Ok bs2 /\
    batch_data id false ([1; 2; 3; 4] ++ [5; 6; 7])
               ([0; 1; 0; 1] ++ [0; 0; 0], [1; 0; 1; 0] ++ [1; 1; 1]) 2
    = Ok (bs1 ++ bs2).
Proof.
  apply (batch_data_app Z id false [1; 2; 3; 4] [5; 6; 7]
           [0; 1; 0; 1] [1; 0; 1; 0] [0; 0; 0] [1; 1; 1] 2 2); reflexivity.
Defined.

Lemma batch_data_oversize_witness :
  batch_data id false [1; 2; 3] ([0], [1; 0; 1; 1]) 4 = Ok [].
Proof.
  apply (batch_data_oversize Z id false [1; 2; 3] ([0], [1; 0; 1; 1]) 4).
  reflexivity.
Defined.

Lemma compute_accuracy_range_witness : (0 <= 2 # 4 <= 1)%Q.
Proof.
  apply (compute_accuracy_range (labels [1; 2; 3; 4]) (labels [1; 0; 3; 0])).
  reflexivity.
Defined.

Lemma compute_accuracy_shapes_witness :
  compute_accuracy (labels [1; 2; 1; 1]) (labels [1])
  = Ok (Np.mean_bool [true; false; true; true]).
Proof.
  apply (proj2 (proj2 (compute_accuracy_shapes (labels [1; 2; 1; 1]) (labels [1])))
           1); [reflexivity | discriminate].
Defined.

Lemma run_epoch_aborts_witness :
  run_epoch Toy.argmax Toy.cross_entropy forward_strict
            ([Toy.batch0] ++ bad_batch :: Toy.data0) Toy.opt0 (Toy.world0 true)
  = Err RuntimeError.
Proof.
  assert (Hpre : exists res w1,
             run_epoch Toy.argmax Toy.cross_entropy forward_strict [Toy.batch0]
                       Toy.opt0 (Toy.world0 true) = Ok (res, w1))
    by (eexists _, _; vm_compute; reflexivity).
  destruct Hpre as (res & w1 & Hpre).
  apply (run_epoch_aborts Z Toy.logits Toy.argmax Toy.cross_entropy forward_strict
           Toy.opt0 [Toy.batch0] Toy.data0 bad_batch (Toy.world0 true) w1 res
           RuntimeError Hpre).
  reflexivity.
Defined.

Lemma run_epoch_last_gradient_witness :
  exists res w' r,
    run_epoch Toy.argmax Toy.cross_entropy Toy.forward ([Toy.batch0] ++ [Toy.batch0])
              Toy.opt0 (Toy.world0 true) = Ok (res, w') /\
    forall i p', params (w_model w') !! i = Some p' ->
                 p_grad p' = Some (joint_grad r i).
Proof.
  assert (Hrun : exists res w',
             run_epoch Toy.argmax Toy.cross_entropy Toy.forward
                       ([Toy.batch0] ++ [Toy.batch0]) Toy.opt0 (Toy.world0 true)
             = Ok (res, w'))
    by (eexists _, _; vm_compute; reflexivity).
  destruct Hrun as (res & w' & Hrun).
  destruct (run_epoch_last_gradient Z Toy.logits Toy.argmax Toy.cross_entropy
              Toy.forward Toy.opt0 [Toy.batch0] Toy.batch0 (Toy.world0 true) w' res
              eq_refl Hrun) as (r & _ & _ & _ & Hgrad).
  exists res, w', r. split; [exact Hrun | exact Hgrad].
Defined.


Lemma train_model_step_count_witness :
  exists w' evs,
    train_model Toy.argmax Toy.cross_entropy Toy.forward Toy.data0 [Toy.batch0]
                (1 # 10) (9 # 10) false 2 (Toy.world0 true) = Ok (tt, w') /\
    w_log w' = evs /\
    Z.of_nat (count_steps evs) = 4.
Proof.
  assert (Hrun : exists w',
             train_model Toy.argmax Toy.cross_entropy Toy.forward Toy.data0
                         [Toy.batch0] (1 # 10) (9 # 10) false 2 (Toy.world0 true)
             = Ok (tt, w'))
    by (eexists _; vm_compute; reflexivity).
  destruct Hrun as (w' & Hrun).
  destruct (train_model_step_count Z Toy.logits Toy.argmax Toy.cross_entropy
              Toy.forward Toy.data0 [Toy.batch0] (1 # 10) (9 # 10) false 2
              (Toy.world0 true) w' tt Hrun) as (evs & Hlog & Hcount).
  exists w', evs. split; [exact Hrun|]. split; [exact Hlog | exact Hcount].
Defined.

Lemma train_model_no_epoch_witness :
  exists w',
    train_model Toy.argmax Toy.cross_entropy Toy.forward Toy.data0 Toy.data0
                (1 # 10) (9 # 10) false (-1) (Toy.world0 true) = Ok (tt, w') /\
    w_model w' = w_model (Toy.world0 true) /\ w_log w' = [].
Proof.
  assert (Hrun : exists w',
             train_model Toy.argmax Toy.cross_entropy Toy.forward Toy.data0
                         Toy.data0 (1 # 10) (9 # 10) false (-1) (Toy.world0 true)
             = Ok (tt, w'))
    by (eexists _; vm_compute; reflexivity).
  destruct Hrun as (w' & Hrun).
  destruct (train_model_no_epoch Z Toy.logits Toy.argmax Toy.cross_entropy
              Toy.forward Toy.data0 Toy.data0 (1 # 10) (9 # 10) false (-1)
              (Toy.world0 true) w' tt) as (Hm & Hl & _); [lia | exact Hrun |].
  exists w'. split; [exact Hrun|]. split; [exact Hm | exact Hl].
Defined.

Lemma train_model_ends_in_eval_witness :
  exists w',
    train_model Toy.argmax Toy.cross_entropy Toy.forward Toy.data0 Toy.data0
                (1 # 10) (9 # 10) false 1 (Toy.world0 true) = Ok (tt, w') /\
    training (w_model w') = false.
Proof.
  assert (Hrun : exists w',
             train_model Toy.argmax Toy.cross_entropy Toy.forward Toy.data0
                         Toy.data0 (1 # 10) (9 # 10) false 1 (Toy.world0 true)
             = Ok (tt, w'))
    by (eexists _; vm_compute; reflexivity).
  destruct Hrun as (w' & Hrun).
  destruct (train_model_ends_in_eval Z Toy.logits Toy.argmax Toy.cross_entropy
              Toy.forward Toy.data0 Toy.data0 (1 # 10) (9 # 10) false 1
              (Toy.world0 true) w' tt toy_forward_keeps_mode) as (Hm & _);
    [lia | exact Hrun |].
  exists w'. split; [exact Hrun | exact Hm].
Defined.

Lemma train_model_ignores_dev_data_witness :
  exists w1 w2,
    train_model Toy.argmax Toy.cross_entropy Toy.forward Toy.data0 Toy.data0
                (1 # 10) (9 # 10) false 1 (Toy.world0 true) = Ok (tt, w1) /\
    train_model Toy.argmax Toy.cross_entropy Toy.forward Toy.data0 []
                (1 # 10) (9 # 10) false 1 (Toy.world0 true) = Ok (tt, w2) /\
    w_model w1 = w_model w2 /\ w_fs w1 = w_fs w2.
Proof.
  assert (Hrun1 : exists w1,
             train_model Toy.argmax Toy.cross_entropy Toy.forward Toy.data0
                         Toy.data0 (1 # 10) (9 # 10) false 1 (Toy.world0 true)
             = Ok (tt, w1))
    by (eexists _; vm_compute; reflexivity).
  assert (Hrun2 : exists w2,
             train_model Toy.argmax Toy.cross_entropy Toy.forward Toy.data0
                         [] (1 # 10) (9 # 10) false 1 (Toy.world0 true)
             = Ok (tt, w2))
    by (eexists _; vm_compute; reflexivity).
  destruct Hrun1 as (w1 & Hrun1). destruct Hrun2 as (w2 & Hrun2).
  destruct (train_model_ignores_dev_data Z Toy.logits Toy.argmax Toy.cross_entropy
              Toy.forward Toy.data0 Toy.data0 [] (1 # 10) (9 # 10) false 1
              (Toy.world0 true) w1 w2 tt tt toy_forward_keeps_state Hrun1 Hrun2)
    as (Hm & _ & Hf).
  exists w1, w2. split; [exact Hrun1|]. split; [exact Hrun2|].
  split; [exact Hm | exact Hf].
Defined.
